(** * Clothing classifier service: embedding of [src/app.py]

    The service is a linear pipeline: image acquisition (external),
    [preprocess_pytorch_style] (NumPy arithmetic), model execution (external),
    and the assembly at the end of [predict], wrapped in two HTTP routes.

    - Python floats and NumPy [float32]/[float64] elements are IEEE 754 binary
      floats, modelled by [spec_float] and the operations of [SpecFloat] at the
      precision of each dtype (round to nearest even, NaN, infinities, signed
      zeros).
    - A NumPy array is a buffer in a store together with a dtype, a shape and
      strides; [transpose] and [reshape] return views onto the same buffer,
      arithmetic allocates a new buffer.
    - A Python [dict] is an association list in insertion order.
    - Exceptions are an error result; code with effects runs in a state and
      exception monad. *)

From Stdlib Require Import ZArith QArith Qabs List String Lia SpecFloat.
From stdpp Require Import base option list gmap strings.

Local Open Scope string_scope.
Local Open Scope list_scope.
Local Open Scope nat_scope.

(** ** Python results and the state and exception monad *)

Inductive exn : Type :=
  | ValueError
  | KeyError
  | TypeError
  | IndexError
  | External (msg : string).

Inductive result (A : Type) : Type :=
  | Ok (a : A)
  | Raise (e : exn).
Arguments Ok {A} a.
Arguments Raise {A} e.

#[global] Instance result_ret : MRet result := @Ok.
#[global] Instance result_bind : MBind result := fun A B f r =>
  match r with
  | Ok a => f a
  | Raise e => Raise e
  end.

(** A computation over a state [S]: it returns a value or raises, and in both
    cases leaves a state behind (an exception does not undo effects). *)
Definition M (S A : Type) : Type := S -> result A * S.

#[global] Instance M_ret {S} : MRet (M S) := fun A a s => (Ok a, s).
#[global] Instance M_bind {S} : MBind (M S) := fun A B f m s =>
  match m s with
  | (Ok a, s') => f a s'
  | (Raise e, s') => (Raise e, s')
  end.

Definition raise {S A} (e : exn) : M S A := fun s => (Raise e, s).
Definition lift {S A} (r : result A) : M S A := fun s => (r, s).

(** ** IEEE 754 floats *)

Inductive dtype : Type := float32 | float64.

#[global] Instance dtype_eq_dec : EqDecision dtype.
Proof. solve_decision. Defined.

Definition prec (dt : dtype) : Z :=
  match dt with float32 => 24 | float64 => 53 end.
Definition emax (dt : dtype) : Z :=
  match dt with float32 => 128 | float64 => 1024 end.

(** A Python [float] is a binary64 value. *)
Abbreviation float := spec_float.

(** Rounds any float to the format of [dt]: [astype], and the promotion of a
    [float32] element to [float64] (exact, but renormalised). *)
Definition convert (dt : dtype) (x : float) : float :=
  match x with
  | S754_finite s m e => binary_round (prec dt) (emax dt) s m e
  | _ => x
  end.

(** The cast of an element from one dtype to another: nothing to do within a
    dtype. *)
Definition cast (from to : dtype) (x : float) : float :=
  if decide (from = to) then x else convert to x.

Definition of_Z (dt : dtype) (z : Z) : float :=
  binary_normalize (prec dt) (emax dt) z 0 false.

Definition fdiv (dt : dtype) : float -> float -> float := SFdiv (prec dt) (emax dt).
Definition fsub (dt : dtype) : float -> float -> float := SFsub (prec dt) (emax dt).

(** The decimal literal [n/d] of the source text, for [d] a power of ten: the
    binary64 value nearest to it.  Division of two exactly represented integers
    is correctly rounded, as Python's parsing of a literal is. *)
Definition decimal (n d : Z) : float := fdiv float64 (of_Z float64 n) (of_Z float64 d).

(** Python's [a > b] on floats: false as soon as one side is NaN. *)
Definition float_gt (a b : float) : bool := SFltb b a.

Definition is_nan (x : float) : bool :=
  match x with S754_nan => true | _ => false end.

(** The order that [SFcompare] puts on floats other than NaN, as a
    lexicographic order on a triple of integers: sign class, exponent and
    mantissa (both negated for a negative float). *)
Definition rank (x : float) : option (Z * Z * Z) :=
  match x with
  | S754_nan => None
  | S754_infinity true => Some (-2, 0, 0)%Z
  | S754_finite true m e => Some (-1, - e, Zneg m)%Z
  | S754_zero _ => Some (0, 0, 0)%Z
  | S754_finite false m e => Some (1, e, Zpos m)%Z
  | S754_infinity false => Some (2, 0, 0)%Z
  end.

Definition lex_compare (a b : Z * Z * Z) : comparison :=
  match (a.1.1 ?= b.1.1)%Z with
  | Eq => match (a.1.2 ?= b.1.2)%Z with
          | Eq => (a.2 ?= b.2)%Z
          | c => c
          end
  | c => c
  end.

Definition lex_lt (a b : Z * Z * Z) : Prop :=
  (a.1.1 < b.1.1 \/
   (a.1.1 = b.1.1 /\ (a.1.2 < b.1.2 \/ (a.1.2 = b.1.2 /\ a.2 < b.2))))%Z.

Definition lex_eq (a b : Z * Z * Z) : Prop :=
  (a.1.1 = b.1.1 /\ a.1.2 = b.1.2 /\ a.2 = b.2)%Z.

Definition rank_rel (R : Z * Z * Z -> Z * Z * Z -> Prop) (x y : float) : Prop :=
  match rank x, rank y with
  | Some a, Some b => R a b
  | _, _ => False
  end.

(** The rational number that a finite float stands for. *)
Definition to_Q (x : float) : option Q :=
  match x with
  | S754_zero _ => Some 0%Q
  | S754_finite s m e =>
      Some ((if s then Zneg m # 1 else Zpos m # 1) * Qpower (2 # 1) e)%Q
  | _ => None
  end.

(** ** Python dict: association list in insertion order *)

Module Dict.
Section Dict.
Context {V : Type}.

Definition t : Type := list (string * V).

(** [d[k] = v]: an existing key keeps its position and takes the new value, a
    new key goes last. *)
Fixpoint setitem (d : t) (k : string) (v : V) : t :=
  match d with
  | [] => [(k, v)]
  | (k', v') :: d' =>
      if String.eqb k' k then (k', v) :: d' else (k', v') :: setitem d' k v
  end.

(** [dict(items)] *)
Definition of_items (items : list (string * V)) : t :=
  fold_left (fun d kv => setitem d kv.1 kv.2) items [].

(** [d.get(k)]: [None] for a missing key. *)
Fixpoint get (d : t) (k : string) : option V :=
  match d with
  | [] => None
  | (k', v) :: d' => if String.eqb k' k then Some v else get d' k
  end.

(** [d[k]] *)
Definition getitem (d : t) (k : string) : result V :=
  match get d k with
  | Some v => Ok v
  | None => Raise KeyError
  end.

(** Iteration over a dict yields its keys in insertion order. *)
Definition keys (d : t) : list string := d.*1.
Definition values (d : t) : list V := d.*2.
End Dict.
Arguments t V : clear implicits.
End Dict.

(** ** The builtin [max] *)

(** [val > maxval] on the objects a key function returns: [d.get] gives a float
    or [None], and an order comparison with [None] raises [TypeError]. *)
Definition obj_gt (val maxval : option float) : result bool :=
  match val, maxval with
  | Some a, Some b => Ok (float_gt a b)
  | _, _ => Raise TypeError
  end.

(** The loop of [max(iterable, key=key)]: the first item starts as the
    maximum, and a later item replaces it only when its key is strictly
    greater. *)
Fixpoint max_loop {A} (key : A -> option float) (maxitem : A)
    (maxval : option float) (it : list A) : result A :=
  match it with
  | [] => Ok maxitem
  | item :: it' =>
      let val := key item in
      b ← obj_gt val maxval;
      if b : bool then max_loop key item val it' else max_loop key maxitem maxval it'
  end.

Definition py_max {A} (key : A -> option float) (it : list A) : result A :=
  match it with
  | [] => Raise ValueError
  | item :: it' => max_loop key item (key item) it'
  end.

(** ** Prediction assembly *)

Definition classes : list string :=
  [ "dress"; "hat"; "longsleeve"; "outwear"; "pants";
    "shirt"; "shoes"; "shorts"; "skirt"; "t-shirt" ].

(** Lines 71 to 76 of [predict]: from the list [float_predictions] to the
    returned triple. *)
Definition predict_assemble (float_predictions : list float)
  : result (Dict.t float * string * float) :=
  let predictions_dict := Dict.of_items (zip classes float_predictions) in
  top_class ← py_max (Dict.get predictions_dict) (Dict.keys predictions_dict);
  top_probability ← Dict.getitem predictions_dict top_class;
  Ok (predictions_dict, top_class, top_probability).

(** What [max(d, key=d.get)] returns for a dict [d]: the entry at [i] is the
    first one that no value exceeds. *)
Definition first_maximal (d : Dict.t float) (i : nat) (k : string) (v : float) : Prop :=
  d !! i = Some (k, v) /\
  (forall j k' v', d !! j = Some (k', v') -> float_gt v' v = false) /\
  (forall j k' v', j < i -> d !! j = Some (k', v') -> SFeqb v' v = false).

(** ** NumPy arrays *)

Definition loc : Type := positive.

(** The store: one buffer of elements per allocation, in element units. *)
Abbreviation heap := (gmap loc (list float)).

(** An array object: a view onto a buffer.  Element [idx] of the array is the
    buffer's element at [offset idx strides]. *)
Record ndarray : Type := mk_ndarray {
  nd_buf : loc;
  nd_dtype : dtype;
  nd_shape : list nat;
  nd_strides : list nat
}.

Definition size (shape : list nat) : nat := foldr Nat.mul 1 shape.

(** Strides of a C-contiguous (row-major) array of the given shape. *)
Fixpoint c_strides (shape : list nat) : list nat :=
  match shape with
  | [] => []
  | _ :: s => size s :: c_strides s
  end.

(** All the indices of a shape, in row-major order. *)
Fixpoint indices (shape : list nat) : list (list nat) :=
  match shape with
  | [] => [[]]
  | n :: s => concat (map (fun i => map (cons i) (indices s)) (seq 0 n))
  end.

Definition offset (idx strides : list nat) : nat :=
  sum_list (zip_with Nat.mul idx strides).

Fixpoint in_bounds (idx shape : list nat) : bool :=
  match idx, shape with
  | [], [] => true
  | i :: idx', n :: shape' => (i <? n) && in_bounds idx' shape'
  | _, _ => false
  end.

(** [X[idx]] for a full index; [None] outside the shape. *)
Definition getitem (h : heap) (X : ndarray) (idx : list nat) : option float :=
  if in_bounds idx (nd_shape X)
  then b ← h !! nd_buf X; b !! offset idx (nd_strides X)
  else None.

(** The elements of an array in row-major order, whatever its strides. *)
Definition elements (h : heap) (X : ndarray) : option (list float) :=
  mapM (getitem h X) (indices (nd_shape X)).

(** What an array holds, apart from where it is stored. *)
Definition value (h : heap) (X : ndarray) : option (dtype * list nat * list float) :=
  els ← elements h X; Some (nd_dtype X, nd_shape X, els).

Definition alloc (data : list float) : M heap loc := fun h =>
  let l := fresh (dom h) in (Ok l, <[l := data]> h).

(** A new C-contiguous array whose element at [idx] is [f idx]. *)
Definition new_array (dt : dtype) (shape : list nat) (f : list nat -> option float)
  : M heap ndarray :=
  match mapM f (indices shape) with
  | Some data => l ← alloc data; mret (mk_ndarray l dt shape (c_strides shape))
  | None => raise IndexError
  end.

Definition pad {A} (k : nat) (x : A) (l : list A) : list A :=
  replicate (k - length l) x ++ l.

Definition broadcast_dim (n m : nat) : option nat :=
  if n =? m then Some n
  else if n =? 1 then Some m
  else if m =? 1 then Some n
  else None.

(** Shapes are aligned on the right; a missing axis counts as 1. *)
Definition broadcast_shapes (s1 s2 : list nat) : option (list nat) :=
  let k := length s1 `max` length s2 in
  mapM (fun nm => broadcast_dim nm.1 nm.2) (zip (pad k 1 s1) (pad k 1 s2)).

(** The view of [X] stretched to [shape]: stride 0 along every axis that is
    missing or of length 1 in [X]. *)
Definition broadcast_to (X : ndarray) (shape : list nat) : ndarray :=
  let k := length shape in
  mk_ndarray (nd_buf X) (nd_dtype X) shape
    (zip_with (fun n st => if n =? 1 then 0 else st)
       (pad k 1 (nd_shape X)) (pad k 0 (nd_strides X))).

Definition result_type (a b : dtype) : dtype :=
  match a, b with
  | float32, float32 => float32
  | _, _ => float64
  end.

Module np.

(** [np.array(l)] for a list of Python floats: a [float64] vector. *)
Definition array (l : list float) : M heap ndarray :=
  b ← alloc l; mret (mk_ndarray b float64 [length l] [1]).

(** [X.reshape(shape)]: a view when [X] is C-contiguous, a copy otherwise. *)
Definition reshape (X : ndarray) (shape : list nat) : M heap ndarray := fun h =>
  if bool_decide (size shape = size (nd_shape X)) then
    if bool_decide (nd_strides X = c_strides (nd_shape X)) then
      (Ok (mk_ndarray (nd_buf X) (nd_dtype X) shape (c_strides shape)), h)
    else
      match elements h X with
      | Some data =>
          (b ← alloc data; mret (mk_ndarray b (nd_dtype X) shape (c_strides shape))) h
      | None => (Raise IndexError, h)
      end
  else (Raise ValueError, h).

(** [X.transpose(axes)]: a view with shape and strides permuted. *)
Definition transpose (X : ndarray) (axes : list nat) : M heap ndarray :=
  match mapM (fun a => nd_shape X !! a) axes,
        mapM (fun a => nd_strides X !! a) axes with
  | Some shape, Some strides =>
      if bool_decide (NoDup axes /\ length axes = length (nd_shape X))
      then mret (mk_ndarray (nd_buf X) (nd_dtype X) shape strides)
      else raise ValueError
  | _, _ => raise ValueError
  end.

(** [X op y] for a Python float [y]: the scalar takes the dtype of the
    array, and so does the result. *)
Definition scalar_op (op : dtype -> float -> float -> float)
    (X : ndarray) (y : float) : M heap ndarray := fun h =>
  let dt := nd_dtype X in
  new_array dt (nd_shape X)
    (fun idx => x ← getitem h X idx; Some (op dt x (cast float64 dt y))) h.

(** [X op Y] for two arrays: broadcast shapes, promoted dtype. *)
Definition binary_op (op : dtype -> float -> float -> float)
    (X Y : ndarray) : M heap ndarray := fun h =>
  match broadcast_shapes (nd_shape X) (nd_shape Y) with
  | Some shape =>
      let dt := result_type (nd_dtype X) (nd_dtype Y) in
      let Xb := broadcast_to X shape in
      let Yb := broadcast_to Y shape in
      new_array dt shape
        (fun idx =>
           x ← getitem h Xb idx; y ← getitem h Yb idx;
           Some (op dt (cast (nd_dtype X) dt x) (cast (nd_dtype Y) dt y))) h
  | None => (Raise ValueError, h)
  end.

Definition true_divide_scalar := scalar_op fdiv.
Definition subtract := binary_op fsub.
Definition true_divide := binary_op fdiv.

(** [X.astype(dt)]: always a new array. *)
Definition astype (X : ndarray) (dt : dtype) : M heap ndarray := fun h =>
  new_array dt (nd_shape X) (fun idx => cast (nd_dtype X) dt <$> getitem h X idx) h.

End np.

(** ** Preprocessing transform *)

Definition mean_values : list float := [decimal 485 1000; decimal 456 1000; decimal 406 1000].
Definition std_values : list float := [decimal 229 1000; decimal 224 1000; decimal 225 1000].

Definition preprocess_pytorch_style (X : ndarray) : M heap ndarray :=
  X ← np.true_divide_scalar X (of_Z float64 255);
  mean ← np.array mean_values;
  mean ← np.reshape mean [1; 3; 1; 1];
  std ← np.array std_values;
  std ← np.reshape std [1; 3; 1; 1];
  X ← np.transpose X [0; 3; 1; 2];
  X ← np.subtract X mean;
  X ← np.true_divide X std;
  np.astype X float32.


(** ** The service *)

(** [l[i]] on a Python list. *)
Definition list_index {A} (l : list A) (i : nat) : result A :=
  match l !! i with
  | Some x => Ok x
  | None => Raise IndexError
  end.

(** [a.tolist()] on a vector of [float32]: each element becomes a Python
    float. *)
Definition tolist (a : list float) : list float := map (convert float64) a.

Record PredictResponse : Type := mk_PredictResponse {
  predictions : Dict.t float;
  top_class : string;
  top_probability : float
}.

(** Declared by the source and used by no route. *)
Record Request : Type := mk_Request { request_url : string }.

Definition health (_ : unit) : Dict.t string := [("status", "healthy")].

Inductive http_method : Type := GET | POST.

(** A request as the framework hands it over: method, path, and the [url]
    member of the JSON body when the body has one that is a string. *)
Record http_request : Type := mk_http_request {
  req_method : http_method;
  req_path : string;
  req_url : option string
}.

Inductive content : Type :=
  | JsonStatus (d : Dict.t string)
  | JsonPrediction (r : PredictResponse)
  | JsonDetail (detail : string).

Record http_response : Type := mk_http_response {
  status : nat;
  body : content
}.

Definition is_success (r : http_response) : bool := (200 <=? status r) && (status r <? 300).
Definition is_client_error (r : http_response) : bool := (400 <=? status r) && (status r <? 500).
Definition is_server_error (r : http_response) : bool := (500 <=? status r) && (status r <? 600).

Section Service.
(** The collaborators the source imports: the image helper, the inference
    session and the URL type of the request model.  [world] is whatever
    they act on (network, model runtime). *)
Context {world tensor HttpUrl : Type}.
Variable create_preprocessor :
  (ndarray -> M heap ndarray) -> nat * nat -> string -> M world tensor.
Variable session_run : tensor -> M world (list (list (list float))).
Variable HttpUrl_validate : string -> option HttpUrl.
Variable HttpUrl_str : HttpUrl -> string.

Definition target_size : nat * nat := (224, 224).

(** [preprocessor.from_url] *)
Definition preprocessor : string -> M world tensor :=
  create_preprocessor preprocess_pytorch_style target_size.

Record PredictRequest : Type := mk_PredictRequest { url : HttpUrl }.

Definition predict (url : string) : M world (Dict.t float * string * float) :=
  X ← preprocessor url;
  result ← session_run X;
  r0 ← lift (list_index result 0);
  r00 ← lift (list_index r0 0);
  let float_predictions := tolist r00 in
  lift (predict_assemble float_predictions).

Definition predict_endpoint (request : PredictRequest) : M world PredictResponse :=
  r ← predict (HttpUrl_str (url request));
  let '(predictions, top_class, top_prob) := r in
  mret (mk_PredictResponse predictions top_class top_prob).

(** The routes the decorators declare, under the framework's contract: the
    body is validated against the handler's parameter type before the
    handler is called (422 when it fails), a handler that returns gives
    200, one that raises gives 500. *)
Definition app (req : http_request) : M world http_response :=
  match req_method req with
  | GET =>
      if String.eqb (req_path req) "/health"
      then mret (mk_http_response 200 (JsonStatus (health tt)))
      else if String.eqb (req_path req) "/predict"
      then mret (mk_http_response 405 (JsonDetail "Method Not Allowed"))
      else mret (mk_http_response 404 (JsonDetail "Not Found"))
  | POST =>
      if String.eqb (req_path req) "/predict" then
        match req_url req ≫= HttpUrl_validate with
        | None => mret (mk_http_response 422 (JsonDetail "Unprocessable Entity"))
        | Some u => fun w =>
            match predict_endpoint (mk_PredictRequest u) w with
            | (Ok r, w') => (Ok (mk_http_response 200 (JsonPrediction r)), w')
            | (Raise _, w') =>
                (Ok (mk_http_response 500 (JsonDetail "Internal Server Error")), w')
            end
        end
      else if String.eqb (req_path req) "/health"
      then mret (mk_http_response 405 (JsonDetail "Method Not Allowed"))
      else mret (mk_http_response 404 (JsonDetail "Not Found"))
  end.
End Service.

(** ** Observing arrays and computations *)

(** What a caller sees of a call that returns an array: the exception, or what
    the returned array holds. *)
Definition outcome (r : result ndarray * heap)
  : result (option (dtype * list nat * list float)) :=
  match r with
  | (Ok Y, h) => Ok (value h Y)
  | (Raise e, _) => Raise e
  end.

(** Two stores hold the same array at [X1] and at [X2]: same dtype, shape and
    strides over buffers with the same content.  The rest of the two stores
    is unrelated. *)
Definition same_array (h1 : heap) (X1 : ndarray) (h2 : heap) (X2 : ndarray) : Prop :=
  nd_dtype X1 = nd_dtype X2 /\
  nd_shape X1 = nd_shape X2 /\
  nd_strides X1 = nd_strides X2 /\
  exists b, h1 !! nd_buf X1 = Some b /\ h2 !! nd_buf X2 = Some b.

(** A computation only adds buffers to the store: every buffer that was there
    is still there, with the same content. *)
Definition extends {A} (m : M heap A) : Prop := forall h, h ⊆ (m h).2.

(** Array [X] of store [h] has dtype [dt], shape [shape], one stride per
    axis, and element [f idx] at every index [idx] of the shape. *)
Definition holds (h : heap) (X : ndarray) (dt : dtype) (shape : list nat)
    (f : list nat -> float) : Prop :=
  nd_dtype X = dt /\
  nd_shape X = shape /\
  length (nd_strides X) = length shape /\
  forall idx, in_bounds idx shape = true -> getitem h X idx = Some (f idx).

(** Two runs, from two stores, end alike: both raise the same exception, or
    both return, with results related by [R], each store only extended. *)
Definition sim {A} (R : heap -> A -> heap -> A -> Prop)
    (m1 m2 : M heap A) (h1 h2 : heap) : Prop :=
  match m1 h1, m2 h2 with
  | (Ok a1, h1'), (Ok a2, h2') => R h1' a1 h2' a2 /\ h1 ⊆ h1' /\ h2 ⊆ h2'
  | (Raise e1, _), (Raise e2, _) => e1 = e2
  | _, _ => False
  end.

(** ** Sample inputs *)

Definition scores_example : list float :=
  [ decimal 1 10; decimal 5 100; decimal 5 100; decimal 5 100; decimal 5 100;
    decimal 1 10; decimal 1 10; decimal 1 10; decimal 3 10; decimal 1 10 ].

(** Two classes share the highest score: "hat" and "shoes". *)
Definition scores_tie : list float :=
  [ decimal 1 10; decimal 3 10; decimal 5 100; decimal 5 100; decimal 5 100;
    decimal 1 10; decimal 3 10; decimal 1 10; decimal 0 10; decimal 1 10 ].

(** A 2 by 3 image whose red plane is all 255 and whose other planes are 0. *)
Definition red_pixel (dt : dtype) (i j c : nat) : float :=
  if c =? 0 then of_Z dt 255 else of_Z dt 0.

Definition red_heap (dt : dtype) : heap :=
  {[ 1%positive :=
       concat (map (fun ij => map (red_pixel dt 0 0) (seq 0 3)) (seq 0 6)) ]}.

Definition red_image (dt : dtype) : ndarray :=
  mk_ndarray 1%positive dt [1; 2; 3; 3] (c_strides [1; 2; 3; 3]).

(** The same image in another store: at another location, next to a buffer
    that has nothing to do with it. *)
Definition red_heap_moved (dt : dtype) : heap :=
  {[ 5%positive :=
       concat (map (fun ij => map (red_pixel dt 0 0) (seq 0 3)) (seq 0 6));
     1%positive := [S754_nan; S754_infinity true] ]}.

Definition red_image_moved (dt : dtype) : ndarray :=
  mk_ndarray 5%positive dt [1; 2; 3; 3] (c_strides [1; 2; 3; 3]).

(** Collaborators for running the service: the world is the log of the calls
    made to them. *)
Definition log_preprocessor (f : ndarray -> M heap ndarray) (size : nat * nat)
    (url : string) : M (list string) (option (dtype * list nat * list float)) :=
  fun w =>
    match f (red_image float32) (red_heap float32) with
    | (Ok Y, h) => (Ok (value h Y), w ++ ["fetch"])
    | (Raise e, _) => (Raise e, w ++ ["fetch"])
    end.

Definition log_session (X : option (dtype * list nat * list float))
  : M (list string) (list (list (list float))) :=
  fun w => (Ok [[map (convert float32) scores_example]], w ++ ["run"]).

Definition http_prefix_validate (s : string) : option string :=
  if String.prefix "http://" s || String.prefix "https://" s then Some s else None.


(** The red image again, stored channel by channel: the array is a
    transposed view of its buffer, with the strides of that layout. *)
Definition red_heap_planar (dt : dtype) : heap :=
  {[ 1%positive := replicate 6 (of_Z dt 255) ++ replicate 12 (of_Z dt 0) ]}.

Definition red_image_planar (dt : dtype) : ndarray :=
  mk_ndarray 1%positive dt [1; 2; 3; 3] [18; 3; 1; 6].

(** A C-contiguous [float32] array of the given shape, every element 255,
    alone in its store. *)
Definition white_heap (shape : list nat) : heap :=
  {[ 1%positive := replicate (size shape) (of_Z float32 255) ]}.

Definition white_image (shape : list nat) : ndarray :=
  mk_ndarray 1%positive float32 shape (c_strides shape).

(** Collaborators that fail, and a session that returns a given result. *)
Definition failing_preprocessor (f : ndarray -> M heap ndarray) (size : nat * nat)
    (url : string) : M (list string) (option (dtype * list nat * list float)) :=
  fun w => (Raise (External "fetch"), w ++ ["fetch"]).

Definition failing_session (X : option (dtype * list nat * list float))
  : M (list string) (list (list (list float))) :=
  fun w => (Raise (External "run"), w ++ ["run"]).

Definition fixed_session (result : list (list (list float)))
    (X : option (dtype * list nat * list float))
  : M (list string) (list (list (list float))) :=
  fun w => (Ok result, w ++ ["run"]).

(** * Proofs *)

(** ** The order on floats *)

Lemma SFcompare_rank x y :
  SFcompare x y =
  match rank x, rank y with
  | Some a, Some b => Some (lex_compare a b)
  | _, _ => None
  end.
Proof.
  destruct x as [[]|[]| |[] m1 e1], y as [[]|[]| |[] m2 e2]; try reflexivity;
    unfold lex_compare; simpl.
  - rewrite Z.compare_opp, (Z.compare_antisym e1 e2).
    destruct (e1 ?= e2)%Z; reflexivity.
Qed.

Lemma lex_compare_Lt a b : lex_compare a b = Lt <-> lex_lt a b.
Proof.
  unfold lex_compare, lex_lt.
  destruct (Z.compare_spec a.1.1 b.1.1), (Z.compare_spec a.1.2 b.1.2),
    (Z.compare_spec a.2 b.2); split; intros; try discriminate; try reflexivity; lia.
Qed.

Lemma lex_compare_Eq a b : lex_compare a b = Eq <-> lex_eq a b.
Proof.
  unfold lex_compare, lex_eq.
  destruct (Z.compare_spec a.1.1 b.1.1), (Z.compare_spec a.1.2 b.1.2),
    (Z.compare_spec a.2 b.2); split; intros; try discriminate; try reflexivity; lia.
Qed.

Lemma SFltb_true x y : SFltb x y = true <-> rank_rel lex_lt x y.
Proof.
  unfold SFltb, rank_rel. rewrite SFcompare_rank.
  destruct (rank x) as [a|], (rank y) as [b|]; try (split; [discriminate | tauto]).
  rewrite <- lex_compare_Lt. destruct (lex_compare a b); split; congruence.
Qed.

Lemma SFeqb_true x y : SFeqb x y = true <-> rank_rel lex_eq x y.
Proof.
  unfold SFeqb, rank_rel. rewrite SFcompare_rank.
  destruct (rank x) as [a|], (rank y) as [b|]; try (split; [discriminate | tauto]).
  rewrite <- lex_compare_Eq. destruct (lex_compare a b); split; congruence.
Qed.

Lemma SFleb_true x y :
  SFleb x y = true <-> rank_rel (fun a b => lex_lt a b \/ lex_eq a b) x y.
Proof.
  unfold SFleb, rank_rel. rewrite SFcompare_rank.
  destruct (rank x) as [a|], (rank y) as [b|]; try (split; [discriminate | tauto]).
  rewrite <- lex_compare_Lt, <- lex_compare_Eq.
  destruct (lex_compare a b); split; intros; try discriminate; try tauto.
  destruct H; discriminate.
Qed.

Lemma is_nan_rank x : is_nan x = false <-> is_Some (rank x).
Proof.
  destruct x as [[]|[]| |[] ? ?]; simpl; split; intros H; try done; try by eexists.
Qed.

Ltac float_order :=
  rewrite ?is_nan_rank in *;
  unfold float_gt in *;
  repeat match goal with
    | H : _ = false |- _ => apply not_true_iff_false in H
    | |- _ = false => apply not_true_iff_false
    end;
  rewrite ?SFltb_true, ?SFeqb_true, ?SFleb_true in *;
  unfold rank_rel, lex_lt, lex_eq, is_Some in *;
  repeat match goal with
    | H : exists _, _ |- _ => destruct H
    | H : context [rank ?x] |- _ => destruct (rank x) as [[[? ?] ?]|]
    | |- context [rank ?x] => destruct (rank x) as [[[? ?] ?]|]
    end;
  simpl in *; try tauto; try discriminate; try lia.

Lemma float_gt_irrefl v : float_gt v v = false.
Proof. float_order. Qed.

Lemma float_gt_raise v m x :
  float_gt v m = true -> float_gt x m = false -> float_gt x v = false.
Proof. intros. float_order. Qed.

Lemma float_gt_raise_neq v m x :
  float_gt v m = true -> float_gt x m = false -> SFeqb x v = false.
Proof. intros. float_order. Qed.

Lemma float_gt_neq v m : float_gt v m = true -> SFeqb m v = false.
Proof. intros. float_order. Qed.

Lemma float_not_gt_le x m :
  is_nan x = false -> is_nan m = false -> float_gt x m = false -> SFleb x m = true.
Proof. intros. float_order. Qed.

Lemma float_le_not_lt_eq a b :
  SFleb a b = true -> float_gt b a = false -> SFeqb a b = true.
Proof. intros. float_order. Qed.

Lemma SFeqb_trans_false x t m :
  SFeqb x t = false -> SFeqb t m = true -> SFeqb x m = false.
Proof. intros. float_order. Qed.

Lemma SFleb_not_gt x m : SFleb x m = true -> float_gt x m = false.
Proof. intros. float_order. Qed.

(** ** Dicts with distinct keys *)

Lemma setitem_new {V} (d : Dict.t V) k v :
  k ∉ Dict.keys d -> Dict.setitem d k v = d ++ [(k, v)].
Proof.
  induction d as [|[k' v'] d IH]; simpl; intros Hk; [done|].
  apply not_elem_of_cons in Hk as [Hne Hk].
  destruct (String.eqb_spec k' k) as [->|_]; [done|].
  by rewrite IH.
Qed.

Lemma of_items_app {V} (items acc : list (string * V)) :
  NoDup (acc ++ items).*1 ->
  fold_left (fun d kv => Dict.setitem d kv.1 kv.2) items acc = acc ++ items.
Proof.
  revert acc. induction items as [|[k v] items IH]; intros acc Hnd; simpl.
  - by rewrite app_nil_r.
  - rewrite setitem_new.
    + rewrite IH; rewrite <- app_assoc; done.
    + rewrite fmap_app in Hnd. apply NoDup_app in Hnd as (_ & Hdisj & _).
      intros Hin. apply (Hdisj k Hin). simpl. left.
Qed.

Lemma of_items_nodup {V} (items : list (string * V)) :
  NoDup items.*1 -> Dict.of_items items = items.
Proof. intros Hnd. unfold Dict.of_items. by rewrite of_items_app. Qed.

Lemma get_lookup {V} (d : Dict.t V) i k v :
  NoDup (Dict.keys d) -> d !! i = Some (k, v) -> Dict.get d k = Some v.
Proof.
  revert i. induction d as [|[k' v'] d IH]; intros i Hnd Hi; [done|].
  simpl in *. apply NoDup_cons in Hnd as [Hk' Hnd].
  destruct i as [|i]; simpl in Hi.
  - injection Hi as -> ->. by rewrite String.eqb_refl.
  - destruct (String.eqb_spec k' k) as [->|_]; [|by eapply IH].
    exfalso. apply Hk'. apply list_elem_of_fmap. exists (k, v). split; [done|].
    by eapply list_elem_of_lookup_2.
Qed.

Lemma classes_nodup : NoDup classes.
Proof. apply (bool_decide_unpack _). vm_compute. exact I. Qed.

Lemma zip_fst_take {A B} (l : list A) (k : list B) : (zip l k).*1 = take (length k) l.
Proof.
  revert k. induction l as [|a l IH]; intros [|b k]; simpl; try done.
  by rewrite IH.
Qed.

Lemma zip_snd_take {A B} (l : list A) (k : list B) : (zip l k).*2 = take (length l) k.
Proof.
  revert k. induction l as [|a l IH]; intros [|b k]; simpl; try done.
  by rewrite IH.
Qed.

Lemma zip_classes_nodup (scores : list float) : NoDup (zip classes scores).*1.
Proof.
  rewrite zip_fst_take. eapply sublist_NoDup; [apply classes_nodup|apply sublist_take].
Qed.

(** ** The builtin [max] over a dict *)

Lemma max_loop_dict (d : Dict.t float) (rest pre : Dict.t float) i mk mv :
  d = pre ++ rest ->
  NoDup (Dict.keys d) ->
  d !! i = Some (mk, mv) ->
  i < length pre ->
  (forall j k v, j < length pre -> d !! j = Some (k, v) -> float_gt v mv = false) ->
  (forall j k v, j < i -> d !! j = Some (k, v) -> SFeqb v mv = false) ->
  exists i' k' v',
    max_loop (Dict.get d) mk (Some mv) (Dict.keys rest) = Ok k' /\
    first_maximal d i' k' v'.
Proof.
  revert pre i mk mv.
  induction rest as [|[k v] rest IH]; intros pre i mk mv Hd Hnd Hi Hlt Hle Hne.
  - exists i, mk, mv. split; [done|]. split_and!; [done| |done].
    intros j k' v' Hj. eapply Hle; [|done].
    apply lookup_lt_Some in Hj. rewrite Hd, app_nil_r in Hj. done.
  - assert (Hk : d !! length pre = Some (k, v)).
    { rewrite Hd. by apply list_lookup_middle. }
    simpl. rewrite (get_lookup d (length pre) k v Hnd Hk). simpl.
    destruct (float_gt v mv) eqn:Hgt.
    + apply (IH (pre ++ [(k, v)]) (length pre)).
      * by rewrite <- app_assoc.
      * done.
      * done.
      * rewrite length_app. simpl. lia.
      * intros j k' v' Hj Hjl. rewrite length_app in Hj. simpl in Hj.
        destruct (decide (j = length pre)) as [->|].
        -- rewrite Hk in Hjl. injection Hjl as _ <-. apply float_gt_irrefl.
        -- eapply float_gt_raise; [done|]. eapply (Hle j); [lia|done].
      * intros j k' v' Hj Hjl.
        eapply float_gt_raise_neq; [done|]. eapply (Hle j); [lia|done].
    + apply (IH (pre ++ [(k, v)]) i).
      * by rewrite <- app_assoc.
      * done.
      * done.
      * rewrite length_app. lia.
      * intros j k' v' Hj Hjl. rewrite length_app in Hj. simpl in Hj.
        destruct (decide (j = length pre)) as [->|].
        -- rewrite Hk in Hjl. by injection Hjl as _ <-.
        -- eapply (Hle j); [lia|done].
      * done.
Qed.

Lemma py_max_dict (d : Dict.t float) :
  d <> [] -> NoDup (Dict.keys d) ->
  exists i k v, py_max (Dict.get d) (Dict.keys d) = Ok k /\ first_maximal d i k v.
Proof.
  destruct d as [|[k v] d]; [done|]. intros _ Hnd.
  change (py_max (Dict.get ((k, v) :: d)) (Dict.keys ((k, v) :: d)))
    with (max_loop (Dict.get ((k, v) :: d)) k (Dict.get ((k, v) :: d) k) (Dict.keys d)).
  rewrite (get_lookup ((k, v) :: d) 0 k v Hnd eq_refl).
  apply (max_loop_dict ((k, v) :: d) d [(k, v)] 0); simpl; try done; try lia.
  intros [|j] k' v' Hj Hjl; [|lia]. simpl in Hjl. injection Hjl as _ <-.
  apply float_gt_irrefl.
Qed.

(** ** Prediction assembly *)

Lemma predict_assemble_spec (scores : list float) :
  scores <> [] ->
  exists i tc tp,
    predict_assemble scores = Ok (zip classes scores, tc, tp) /\
    first_maximal (zip classes scores) i tc tp.
Proof.
  intros Hne. unfold predict_assemble.
  rewrite (of_items_nodup _ (zip_classes_nodup scores)).
  destruct (py_max_dict (zip classes scores)) as (i & tc & tp & Hmax & Hfm).
  - destruct scores; [done|]. discriminate.
  - apply zip_classes_nodup.
  - exists i, tc, tp. split; [|done].
    cbv zeta. rewrite Hmax. unfold mbind at 1, result_bind at 1. unfold Dict.getitem.
    by rewrite (get_lookup _ i tc tp (zip_classes_nodup scores) (proj1 Hfm)).
Qed.

Lemma predict_assemble_empty : predict_assemble [] = Raise ValueError.
Proof. reflexivity. Qed.

Lemma predict_assemble_inv scores d tc tp :
  predict_assemble scores = Ok (d, tc, tp) ->
  scores <> [] /\ d = zip classes scores /\ exists i, first_maximal d i tc tp.
Proof.
  intros H. destruct (decide (scores = [])) as [->|Hne]; [discriminate|].
  destruct (predict_assemble_spec scores Hne) as (i & tc' & tp' & Heq & Hfm).
  rewrite Heq in H. injection H as <- <- <-. eauto.
Qed.

Lemma zip_lookup_Some {A B} (l : list A) (k : list B) i a b :
  zip l k !! i = Some (a, b) <-> l !! i = Some a /\ k !! i = Some b.
Proof.
  rewrite lookup_zip_with_Some. split.
  - intros (x & y & [= <- <-] & ? & ?). done.
  - intros [? ?]. by exists a, b.
Qed.

Lemma values_lookup {V} (d : Dict.t V) v :
  v ∈ Dict.values d -> exists j k, d !! j = Some (k, v).
Proof.
  unfold Dict.values. intros Hv. apply list_elem_of_fmap in Hv as ([k v'] & -> & Hin).
  apply list_elem_of_lookup in Hin as [j Hj]. by exists j, k.
Qed.

(** The two loops of [max(d, key=d.get)] and [max(d.values())] take the same
    branches. *)
Lemma max_loop_values (d rest : Dict.t float) mk mv :
  (forall k v, (k, v) ∈ rest -> Dict.get d k = Some v) ->
  Dict.get d mk = Some mv ->
  exists k' v',
    max_loop (Dict.get d) mk (Some mv) (Dict.keys rest) = Ok k' /\
    Dict.get d k' = Some v' /\
    max_loop Some mv (Some mv) (Dict.values rest) = Ok v'.
Proof.
  revert mk mv. induction rest as [|[k v] rest IH]; intros mk mv Hrest Hmk.
  - by exists mk, mv.
  - simpl. rewrite (Hrest k v) by left. simpl.
    assert (Hrest' : forall k0 v0, (k0, v0) ∈ rest -> Dict.get d k0 = Some v0).
    { intros k0 v0 Hin. apply Hrest. by right. }
    destruct (float_gt v mv).
    + apply IH; [done|]. apply Hrest. left.
    + by apply IH.
Qed.

Lemma py_max_values (d : Dict.t float) k :
  NoDup (Dict.keys d) ->
  py_max (Dict.get d) (Dict.keys d) = Ok k ->
  exists v, Dict.get d k = Some v /\ py_max Some (Dict.values d) = Ok v.
Proof.
  intros Hnd. destruct d as [|[k0 v0] d]; [discriminate|].
  assert (Hall : forall k1 v1, (k1, v1) ∈ (k0, v0) :: d ->
                   Dict.get ((k0, v0) :: d) k1 = Some v1).
  { intros k1 v1 Hin. apply list_elem_of_lookup in Hin as [j Hj].
    by eapply get_lookup. }
  destruct (max_loop_values ((k0, v0) :: d) d k0 v0) as (k' & v' & H1 & H2 & H3).
  - intros k1 v1 Hin. apply Hall. by right.
  - apply Hall. left.
  - change (py_max (Dict.get ((k0, v0) :: d)) (Dict.keys ((k0, v0) :: d)))
      with (max_loop (Dict.get ((k0, v0) :: d)) k0 (Dict.get ((k0, v0) :: d) k0)
              (Dict.keys d)).
    rewrite (Hall k0 v0) by left. rewrite H1. intros [= <-]. by exists v'.
Qed.

Lemma predict_inv {world tensor}
    (create_preprocessor : (ndarray -> M heap ndarray) -> nat * nat -> string -> M world tensor)
    (session_run : tensor -> M world (list (list (list float)))) url w w' r :
  predict create_preprocessor session_run url w = (Ok r, w') ->
  exists scores, predict_assemble scores = Ok r.
Proof.
  unfold predict, preprocessor, mbind, M_bind, lift.
  destruct (create_preprocessor _ _ url w) as [[X|e] w1]; [|discriminate].
  destruct (session_run X w1) as [[result|e] w2]; [|discriminate].
  destruct (list_index result 0) as [r0|e]; [|discriminate].
  destruct (list_index r0 0) as [r00|e]; [|discriminate].
  intros [= H _]. by exists (tolist r00).
Qed.

(** C5. With the scores [0.1, 0.05, 0.05, 0.05, 0.05, 0.1, 0.1, 0.1, 0.3, 0.1]
    the assembly returns top class "skirt" with top probability 0.3, and a
    mapping whose keys are the ten classes and whose values are the ten
    scores, position by position. *)
Theorem predict_assemble_example :
  predict_assemble scores_example
    = Ok (zip classes scores_example, "skirt", decimal 3 10) /\
  Dict.keys (zip classes scores_example) = classes /\
  Dict.values (zip classes scores_example) = scores_example.
Proof. split_and!; vm_compute; reflexivity. Qed.

(** C1, as the claim states it, fails: nine scores, and eleven scores, are
    accepted.  With nine the mapping has no entry for "t-shirt"; with eleven
    the last score, here the largest, is dropped. *)
Lemma predict_assemble_accepts_wrong_length :
  length (take 9 scores_example) <> 10 /\
  predict_assemble (take 9 scores_example)
    = Ok (zip (take 9 classes) (take 9 scores_example), "skirt", decimal 3 10) /\
  length (scores_example ++ [decimal 9 10]) <> 10 /\
  predict_assemble (scores_example ++ [decimal 9 10])
    = Ok (zip classes scores_example, "skirt", decimal 3 10).
Proof. split_and!; vm_compute; (reflexivity || discriminate). Qed.

(** C1, amended.  The assembly has no length check: for a score list whose
    length is not 10, [zip] pairs classes and scores up to the shorter of the
    two.  A list that is not empty gives a result whose mapping holds the first
    [min n 10] classes with the first [min n 10] scores, never a padded entry;
    the empty list alone fails, with the [ValueError] of [max]. *)
Theorem predict_assemble_no_length_check (scores : list float) :
  length scores <> 10 ->
  (scores = [] -> predict_assemble scores = Raise ValueError) /\
  (scores <> [] ->
   exists tc tp,
     predict_assemble scores = Ok (zip classes scores, tc, tp) /\
     Dict.keys (zip classes scores) = take (length scores) classes /\
     Dict.values (zip classes scores) = take 10 scores /\
     length (zip classes scores) = length scores `min` 10).
Proof.
  intros _. split.
  - intros ->. reflexivity.
  - intros Hne. destruct (predict_assemble_spec scores Hne) as (i & tc & tp & Heq & _).
    exists tc, tp. split_and!; [done| | |].
    + apply zip_fst_take.
    + apply zip_snd_take.
    + rewrite length_zip_with. change (length classes) with 10. lia.
Qed.

Lemma predict_assemble_no_length_check_witness :
  length (take 9 scores_example) <> 10 /\
  (take 9 scores_example = [] ->
   predict_assemble (take 9 scores_example) = Raise ValueError) /\
  (take 9 scores_example <> [] ->
   exists tc tp,
     predict_assemble (take 9 scores_example)
       = Ok (zip classes (take 9 scores_example), tc, tp) /\
     Dict.keys (zip classes (take 9 scores_example))
       = take (length (take 9 scores_example)) classes /\
     Dict.values (zip classes (take 9 scores_example)) = take 10 (take 9 scores_example) /\
     length (zip classes (take 9 scores_example))
       = length (take 9 scores_example) `min` 10).
Proof.
  split.
  - vm_compute. discriminate.
  - apply (predict_assemble_no_length_check (take 9 scores_example)).
    vm_compute. discriminate.
Defined.

(** C2. For ten scores that have a maximum [m] (a score that every score is
    at most), [predict]'s assembly returns as top class the class at the
    first position whose score equals [m]: no earlier class has a score equal
    to [m].  When two or more scores equal the maximum, the earliest of their
    classes in the class list wins. *)
Theorem predict_tie_break_first_class (scores : list float) (m : float) :
  length scores = 10 ->
  m ∈ scores ->
  (forall v, v ∈ scores -> SFleb v m = true) ->
  exists d tc tp i,
    predict_assemble scores = Ok (d, tc, tp) /\
    classes !! i = Some tc /\
    scores !! i = Some tp /\
    SFeqb tp m = true /\
    (forall j v, j < i -> scores !! j = Some v -> SFeqb v m = false).
Proof.
  intros Hlen Hm Hmax.
  destruct (predict_assemble_spec scores) as (i & tc & tp & Heq & Hi & Hle & Hfirst).
  { intros ->. discriminate. }
  apply zip_lookup_Some in Hi as [Hc Hs].
  assert (Htm : SFeqb tp m = true).
  { apply float_le_not_lt_eq.
    - apply Hmax. by eapply list_elem_of_lookup_2.
    - apply list_elem_of_lookup in Hm as [j Hj].
      destruct (lookup_lt_is_Some_2 classes j) as [c Hcj].
      { apply lookup_lt_Some in Hj. rewrite Hlen in Hj. exact Hj. }
      apply (Hle j c m). by apply zip_lookup_Some. }
  exists (zip classes scores), tc, tp, i. split_and!; try done.
  intros j v Hj Hv.
  destruct (lookup_lt_is_Some_2 classes j) as [c Hcj].
  { apply lookup_lt_Some in Hv. rewrite Hlen in Hv. exact Hv. }
  eapply SFeqb_trans_false; [|exact Htm].
  apply (Hfirst j c v Hj). by apply zip_lookup_Some.
Qed.

Lemma predict_tie_break_first_class_witness :
  length scores_tie = 10 /\
  decimal 3 10 ∈ scores_tie /\
  exists d tc tp i,
    predict_assemble scores_tie = Ok (d, tc, tp) /\
    classes !! i = Some tc /\
    scores_tie !! i = Some tp /\
    SFeqb tp (decimal 3 10) = true /\
    (forall j v, j < i -> scores_tie !! j = Some v -> SFeqb v (decimal 3 10) = false).
Proof.
  split; [reflexivity|].
  split; [right; left|].
  apply (predict_tie_break_first_class scores_tie (decimal 3 10)).
  - reflexivity.
  - right; left.
  - intros v Hv. unfold scores_tie in Hv.
    repeat (apply elem_of_cons in Hv as [->|Hv]; [vm_compute; reflexivity|]).
    by apply elem_of_nil in Hv.
Defined.

(** C4. In every result that [predict] returns, the top probability is the
    value that the mapping holds for the top class, which is one of its keys,
    and it is the maximum of the mapping's values: it is what [max] returns on
    the values, no value is greater, and every value is at most it as soon as
    no value is NaN. *)
Theorem predict_top_is_maximum {world tensor}
    (create_preprocessor : (ndarray -> M heap ndarray) -> nat * nat -> string -> M world tensor)
    (session_run : tensor -> M world (list (list (list float))))
    (url : string) (w w' : world) d tc tp :
  predict create_preprocessor session_run url w = (Ok (d, tc, tp), w') ->
  tc ∈ Dict.keys d /\
  Dict.get d tc = Some tp /\
  py_max Some (Dict.values d) = Ok tp /\
  (forall v, v ∈ Dict.values d -> float_gt v tp = false) /\
  ((forall v, v ∈ Dict.values d -> is_nan v = false) ->
   forall v, v ∈ Dict.values d -> SFleb v tp = true).
Proof.
  intros Hp. apply predict_inv in Hp as [scores Hp].
  pose proof Hp as Hp'. apply predict_assemble_inv in Hp' as (Hne & -> & i & Hi & Hle & _).
  pose proof (zip_classes_nodup scores) as Hnd.
  assert (Hget : Dict.get (zip classes scores) tc = Some tp) by by eapply get_lookup.
  assert (Htp : tp ∈ Dict.values (zip classes scores)).
  { apply list_elem_of_fmap. exists (tc, tp). split; [done|]. by eapply list_elem_of_lookup_2. }
  assert (Hgt : forall v, v ∈ Dict.values (zip classes scores) -> float_gt v tp = false).
  { intros v Hv. apply values_lookup in Hv as (j & k & Hj). by eapply Hle. }
  split_and!; try done.
  - apply list_elem_of_fmap. exists (tc, tp). split; [done|]. by eapply list_elem_of_lookup_2.
  - unfold predict_assemble in Hp. rewrite (of_items_nodup _ Hnd) in Hp. cbv zeta in Hp.
    destruct (py_max (Dict.get (zip classes scores)) (Dict.keys (zip classes scores)))
      as [k|e] eqn:Hmax; [|discriminate].
    destruct (py_max_values _ k Hnd Hmax) as (v & Hv & Hvals).
    unfold mbind at 1, result_bind at 1, Dict.getitem in Hp. rewrite Hv in Hp.
    simpl in Hp. injection Hp as <- <-. exact Hvals.
  - intros Hnan v Hv. apply float_not_gt_le; auto.
Qed.

Lemma predict_top_is_maximum_witness :
  predict log_preprocessor log_session "http://bit.ly/mlbookcamp-pants" []
    = (Ok (zip classes (tolist (map (convert float32) scores_example)), "skirt",
           convert float64 (convert float32 (decimal 3 10))),
       ["fetch"; "run"]) /\
  Dict.get (zip classes (tolist (map (convert float32) scores_example))) "skirt"
    = Some (convert float64 (convert float32 (decimal 3 10))).
Proof.
  assert (H : predict log_preprocessor log_session "http://bit.ly/mlbookcamp-pants" []
    = (Ok (zip classes (tolist (map (convert float32) scores_example)), "skirt",
           convert float64 (convert float32 (decimal 3 10))),
       ["fetch"; "run"])) by (vm_compute; reflexivity).
  split; [exact H|].
  exact (proj1 (proj2 (predict_top_is_maximum _ _ _ _ _ _ _ _ H))).
Defined.

(** ** NumPy operations leave existing buffers alone *)

Lemma extends_ret {A} (a : A) : extends (mret a).
Proof. intros h. done. Qed.

Lemma extends_raise {A} e : extends (raise (A := A) e).
Proof. intros h. done. Qed.

Lemma extends_bind {A B} (m : M heap A) (f : A -> M heap B) :
  extends m -> (forall a, extends (f a)) -> extends (m ≫= f).
Proof.
  intros Hm Hf h. unfold mbind, M_bind. specialize (Hm h).
  destruct (m h) as [[a|e] h1]; simpl in *; [|done].
  etrans; [exact Hm|apply Hf].
Qed.

Lemma fresh_lookup (h : heap) : h !! fresh (dom h) = None.
Proof. apply not_elem_of_dom. apply is_fresh. Qed.

Lemma extends_alloc data : extends (alloc data).
Proof. intros h. simpl. apply insert_subseteq, fresh_lookup. Qed.

Lemma extends_new_array dt shape f : extends (new_array dt shape f).
Proof.
  unfold new_array. destruct (mapM f (indices shape)).
  - apply extends_bind; [apply extends_alloc|intros; apply extends_ret].
  - apply extends_raise.
Qed.

Lemma extends_array l : extends (np.array l).
Proof. apply extends_bind; [apply extends_alloc|intros; apply extends_ret]. Qed.

Lemma extends_reshape X shape : extends (np.reshape X shape).
Proof.
  intros h. unfold np.reshape.
  repeat case_bool_decide; simpl; try done.
  destruct (elements h X); [|done].
  apply (extends_bind (alloc l)); [apply extends_alloc|intros; apply extends_ret].
Qed.

Lemma extends_transpose X axes : extends (np.transpose X axes).
Proof.
  unfold np.transpose.
  destruct (mapM (fun a => nd_shape X !! a) axes),
    (mapM (fun a => nd_strides X !! a) axes); try apply extends_raise.
  case_bool_decide; [apply extends_ret|apply extends_raise].
Qed.

Lemma extends_scalar_op op X y : extends (np.scalar_op op X y).
Proof. intros h. unfold np.scalar_op. apply extends_new_array. Qed.

Lemma extends_binary_op op X Y : extends (np.binary_op op X Y).
Proof.
  intros h. unfold np.binary_op.
  destruct (broadcast_shapes _ _); [apply extends_new_array|done].
Qed.

Lemma extends_astype X dt : extends (np.astype X dt).
Proof. intros h. unfold np.astype. apply extends_new_array. Qed.

Create HintDb frame.
#[local] Hint Resolve extends_ret extends_raise extends_alloc extends_new_array
  extends_array extends_reshape extends_transpose extends_scalar_op
  extends_binary_op extends_astype : frame.

Lemma extends_preprocess X : extends (preprocess_pytorch_style X).
Proof.
  unfold preprocess_pytorch_style, np.true_divide_scalar, np.subtract, np.true_divide.
  repeat (apply extends_bind; [auto with frame|intros]).
  auto with frame.
Qed.

Lemma getitem_weaken (h h' : heap) X idx v :
  h ⊆ h' -> getitem h X idx = Some v -> getitem h' X idx = Some v.
Proof.
  unfold getitem. intros Hsub. destruct (in_bounds idx (nd_shape X)); [|done].
  destruct (h !! nd_buf X) as [b|] eqn:Hb; [|done].
  by rewrite (lookup_weaken _ _ _ _ Hb Hsub).
Qed.

Lemma getitem_same_buf (h h' : heap) X b :
  h !! nd_buf X = Some b -> h' !! nd_buf X = Some b ->
  forall idx, getitem h' X idx = getitem h X idx.
Proof. intros Hb Hb' idx. unfold getitem. by rewrite Hb, Hb'. Qed.

(** C10. [preprocess_pytorch_style] does not change its input array: every
    buffer of the store before the call is in the store after it with the same
    content, so the input's buffer is, and the input array holds after the call
    the elements it held before. *)
Theorem preprocess_keeps_input (h : heap) (X : ndarray) (b : list float) :
  h !! nd_buf X = Some b ->
  let h' := (preprocess_pytorch_style X h).2 in
  h ⊆ h' /\
  h' !! nd_buf X = Some b /\
  (forall idx, getitem h' X idx = getitem h X idx) /\
  value h' X = value h X.
Proof.
  intros Hb h'. pose proof (extends_preprocess X h) as Hsub. fold h' in Hsub.
  assert (Hb' : h' !! nd_buf X = Some b) by by eapply lookup_weaken.
  assert (Hget : forall idx, getitem h' X idx = getitem h X idx)
    by by eapply getitem_same_buf.
  split_and!; try done.
  unfold value, elements. f_equal. by apply mapM_ext.
Qed.

(** ** NumPy operations depend on the store through their operands only *)

Lemma same_array_getitem h1 X1 h2 X2 :
  same_array h1 X1 h2 X2 -> forall idx, getitem h1 X1 idx = getitem h2 X2 idx.
Proof.
  intros (Hdt & Hsh & Hst & b & Hb1 & Hb2) idx. unfold getitem.
  by rewrite Hsh, Hst, Hb1, Hb2.
Qed.

Lemma same_array_value h1 X1 h2 X2 :
  same_array h1 X1 h2 X2 -> value h1 X1 = value h2 X2.
Proof.
  intros H. pose proof (same_array_getitem _ _ _ _ H) as Hget.
  destruct H as (Hdt & Hsh & _). unfold value, elements.
  rewrite Hdt, Hsh. f_equal. by apply mapM_ext.
Qed.

Lemma same_array_mono h1 h1' X1 h2 h2' X2 :
  h1 ⊆ h1' -> h2 ⊆ h2' -> same_array h1 X1 h2 X2 -> same_array h1' X1 h2' X2.
Proof.
  intros H1 H2 (Hdt & Hsh & Hst & b & Hb1 & Hb2). split_and!; try done.
  exists b. split; by eapply lookup_weaken.
Qed.

Lemma sim_bind {A B} (R : heap -> A -> heap -> A -> Prop)
    (R' : heap -> B -> heap -> B -> Prop) m1 m2 (f1 f2 : A -> M heap B) h1 h2 :
  sim R m1 m2 h1 h2 ->
  (forall a1 a2 h1' h2', h1 ⊆ h1' -> h2 ⊆ h2' -> R h1' a1 h2' a2 ->
     sim R' (f1 a1) (f2 a2) h1' h2') ->
  sim R' (m1 ≫= f1) (m2 ≫= f2) h1 h2.
Proof.
  unfold sim, mbind, M_bind. intros Hm Hf.
  destruct (m1 h1) as [[a1|e1] h1'], (m2 h2) as [[a2|e2] h2']; try done.
  destruct Hm as (HR & Hs1 & Hs2). specialize (Hf a1 a2 h1' h2' Hs1 Hs2 HR).
  destruct (f1 a1 h1') as [[b1|e1] h1''], (f2 a2 h2') as [[b2|e2] h2'']; try done.
  destruct Hf as (HR' & Hs1' & Hs2'). split_and!; [done| |]; by etrans.
Qed.

Lemma sim_new_array dt shape f1 f2 h1 h2 :
  (forall idx, f1 idx = f2 idx) ->
  sim same_array (new_array dt shape f1) (new_array dt shape f2) h1 h2.
Proof.
  intros Hf. unfold sim, new_array. rewrite (mapM_ext f1 f2 _ Hf).
  destruct (mapM f2 (indices shape)) as [data|]; simpl; [|done].
  split_and!; try apply insert_subseteq, fresh_lookup.
  split_and!; try done. exists data. simpl. by rewrite !lookup_insert_eq.
Qed.

Lemma sim_array l h1 h2 : sim same_array (np.array l) (np.array l) h1 h2.
Proof.
  unfold sim. simpl. split_and!; try apply insert_subseteq, fresh_lookup.
  split_and!; try done. exists l. simpl. by rewrite !lookup_insert_eq.
Qed.

Lemma sim_scalar_op op X1 X2 y h1 h2 :
  same_array h1 X1 h2 X2 ->
  sim same_array (np.scalar_op op X1 y) (np.scalar_op op X2 y) h1 h2.
Proof.
  intros H. pose proof (same_array_getitem _ _ _ _ H) as Hget.
  destruct H as (Hdt & Hsh & _).
  unfold sim, np.scalar_op. rewrite Hdt, Hsh.
  apply sim_new_array. intros idx. by rewrite Hget.
Qed.

Lemma sim_astype X1 X2 dt h1 h2 :
  same_array h1 X1 h2 X2 ->
  sim same_array (np.astype X1 dt) (np.astype X2 dt) h1 h2.
Proof.
  intros H. pose proof (same_array_getitem _ _ _ _ H) as Hget.
  destruct H as (Hdt & Hsh & _).
  unfold sim, np.astype. rewrite Hsh, Hdt.
  apply sim_new_array. intros idx. by rewrite Hget.
Qed.

Lemma sim_binary_op op X1 X2 Y1 Y2 h1 h2 :
  same_array h1 X1 h2 X2 -> same_array h1 Y1 h2 Y2 ->
  sim same_array (np.binary_op op X1 Y1) (np.binary_op op X2 Y2) h1 h2.
Proof.
  intros HX HY.
  unfold sim, np.binary_op.
  destruct HX as (HXdt & HXsh & HXst & HXb), HY as (HYdt & HYsh & HYst & HYb).
  rewrite HXdt, HXsh, HYdt, HYsh.
  destruct (broadcast_shapes (nd_shape X2) (nd_shape Y2)) as [shape|]; [|done].
  apply sim_new_array. intros idx.
  rewrite (same_array_getitem h1 (broadcast_to X1 shape) h2 (broadcast_to X2 shape)).
  2: { unfold broadcast_to. rewrite HXdt, HXsh, HXst. by split_and!. }
  rewrite (same_array_getitem h1 (broadcast_to Y1 shape) h2 (broadcast_to Y2 shape)).
  2: { unfold broadcast_to. rewrite HYdt, HYsh, HYst. by split_and!. }
  done.
Qed.

Lemma sim_transpose X1 X2 axes h1 h2 :
  same_array h1 X1 h2 X2 ->
  sim same_array (np.transpose X1 axes) (np.transpose X2 axes) h1 h2.
Proof.
  intros H. pose proof H as (Hdt & Hsh & Hst & Hb).
  unfold sim, np.transpose. rewrite Hdt, Hsh, Hst.
  destruct (mapM (fun a => nd_shape X2 !! a) axes),
    (mapM (fun a => nd_strides X2 !! a) axes); try done.
  case_bool_decide; [|done]. simpl. split_and!; try done.
Qed.

Lemma sim_reshape X1 X2 shape h1 h2 :
  same_array h1 X1 h2 X2 ->
  sim same_array (np.reshape X1 shape) (np.reshape X2 shape) h1 h2.
Proof.
  intros H. pose proof H as (Hdt & Hsh & Hst & Hb).
  assert (Hel : elements h1 X1 = elements h2 X2).
  { unfold elements. rewrite Hsh. apply mapM_ext.
    by apply same_array_getitem. }
  unfold sim, np.reshape. rewrite Hdt, Hsh, Hst, Hel.
  repeat case_bool_decide; try done.
  destruct (elements h2 X2) as [data|]; [|done]. simpl.
  split_and!; try apply insert_subseteq, fresh_lookup.
  split_and!; try done. exists data. simpl. by rewrite !lookup_insert_eq.
Qed.

Lemma sim_preprocess X1 X2 h1 h2 :
  same_array h1 X1 h2 X2 ->
  sim same_array (preprocess_pytorch_style X1) (preprocess_pytorch_style X2) h1 h2.
Proof.
  intros HX. unfold preprocess_pytorch_style.
  eapply sim_bind; [by apply sim_scalar_op|]. clear dependent X1 X2.
  intros X1 X2 h1a h2a _ _ HX.
  eapply sim_bind; [apply sim_array|]. intros m1 m2 h1b h2b Sa1 Sa2 Hm.
  eapply sim_bind; [by apply sim_reshape|]. clear dependent m1 m2.
  intros m1 m2 h1c h2c Sb1 Sb2 Hm.
  eapply sim_bind; [apply sim_array|]. intros s1 s2 h1d h2d Sc1 Sc2 Hs.
  eapply sim_bind; [by apply sim_reshape|]. clear dependent s1 s2.
  intros s1 s2 h1e h2e Sd1 Sd2 Hs.
  assert (HX' : same_array h1e X1 h2e X2).
  { eapply same_array_mono; [| |exact HX]; repeat (etrans; [eassumption|]); done. }
  assert (Hm' : same_array h1e m1 h2e m2).
  { eapply same_array_mono; [| |exact Hm]; repeat (etrans; [eassumption|]); done. }
  eapply sim_bind; [by apply sim_transpose|]. clear dependent X1 X2.
  intros X1 X2 h1f h2f T1 T2 HX.
  eapply sim_bind.
  { apply sim_binary_op; [done|]. by eapply same_array_mono. }
  intros D1 D2 h1g h2g U1 U2 HD.
  eapply sim_bind.
  { apply sim_binary_op; [done|].
    eapply same_array_mono; [| |exact Hs]; by etrans. }
  intros Q1 Q2 h1h h2h V1 V2 HQ.
  by apply sim_astype.
Qed.

Lemma preprocess_keeps_input_witness :
  red_heap float32 !! nd_buf (red_image float32)
    = Some (concat (map (fun ij => map (red_pixel float32 0 0) (seq 0 3)) (seq 0 6))) /\
  value (preprocess_pytorch_style (red_image float32) (red_heap float32)).2
        (red_image float32)
    = value (red_heap float32) (red_image float32).
Proof.
  assert (H : red_heap float32 !! nd_buf (red_image float32)
    = Some (concat (map (fun ij => map (red_pixel float32 0 0) (seq 0 3)) (seq 0 6))))
    by reflexivity.
  split; [exact H|].
  exact (proj2 (proj2 (proj2 (preprocess_keeps_input _ _ _ H)))).
Defined.

(** ** Determinism *)

Lemma sim_outcome X1 X2 h1 h2 :
  sim same_array (preprocess_pytorch_style X1) (preprocess_pytorch_style X2) h1 h2 ->
  outcome (preprocess_pytorch_style X1 h1) = outcome (preprocess_pytorch_style X2 h2).
Proof.
  unfold sim, outcome.
  destruct (preprocess_pytorch_style X1 h1) as [[Y1|e1] h1'],
    (preprocess_pytorch_style X2 h2) as [[Y2|e2] h2']; try done.
  - intros (H & _ & _). f_equal. by apply same_array_value.
  - by intros ->.
Qed.

(** C9. The preprocessing transform and the assembly are functions of their
    input alone.  Two calls of [preprocess_pytorch_style] on the same array,
    from stores that may differ everywhere else, raise the same exception or
    return arrays with the same dtype, shape and elements; so does a second
    call that follows a first one.  And what [predict] returns is fixed by the
    scores that the model returned, whatever the collaborators and the state
    of the world. *)
Theorem pipeline_functions_deterministic :
  (forall h1 h2 X1 X2,
     same_array h1 X1 h2 X2 ->
     outcome (preprocess_pytorch_style X1 h1)
       = outcome (preprocess_pytorch_style X2 h2)) /\
  (forall h X b,
     h !! nd_buf X = Some b ->
     outcome (preprocess_pytorch_style X (preprocess_pytorch_style X h).2)
       = outcome (preprocess_pytorch_style X h)) /\
  (forall (world1 world2 tensor1 tensor2 : Type)
      (cp1 : (ndarray -> M heap ndarray) -> nat * nat -> string -> M world1 tensor1)
      (cp2 : (ndarray -> M heap ndarray) -> nat * nat -> string -> M world2 tensor2)
      sr1 sr2 url1 url2 w1 w2 X1 X2 w1a w2a w1b w2b res,
     preprocessor cp1 url1 w1 = (Ok X1, w1a) -> sr1 X1 w1a = (Ok res, w1b) ->
     preprocessor cp2 url2 w2 = (Ok X2, w2a) -> sr2 X2 w2a = (Ok res, w2b) ->
     (predict cp1 sr1 url1 w1).1 = (predict cp2 sr2 url2 w2).1 /\
     (predict cp1 sr1 url1 w1).2 = w1b /\
     (predict cp2 sr2 url2 w2).2 = w2b).
Proof.
  split_and!.
  - intros h1 h2 X1 X2 H. by apply sim_outcome, sim_preprocess.
  - intros h X b Hb. apply sim_outcome, sim_preprocess.
    split_and!; try done. exists b. split; [|done].
    eapply lookup_weaken; [exact Hb|apply extends_preprocess].
  - intros world1 world2 tensor1 tensor2 cp1 cp2 sr1 sr2 url1 url2 w1 w2
      X1 X2 w1a w2a w1b w2b res Hp1 Hs1 Hp2 Hs2.
    unfold predict, mbind, M_bind, lift. rewrite Hp1, Hs1, Hp2, Hs2.
    destruct (list_index res 0) as [r0|e]; [|done].
    destruct (list_index r0 0) as [r00|e]; done.
Qed.

Lemma pipeline_functions_deterministic_witness :
  same_array (red_heap float32) (red_image float32)
             (red_heap_moved float32) (red_image_moved float32) /\
  outcome (preprocess_pytorch_style (red_image float32) (red_heap float32))
    = outcome (preprocess_pytorch_style (red_image_moved float32) (red_heap_moved float32)) /\
  (predict log_preprocessor log_session "http://a/b.png" []).1
    = (predict log_preprocessor log_session "http://c/d.png" ["earlier"]).1.
Proof.
  assert (H : same_array (red_heap float32) (red_image float32)
                (red_heap_moved float32) (red_image_moved float32)).
  { split_and!; try reflexivity. eexists. split; reflexivity. }
  split; [exact H|]. split.
  - exact (proj1 pipeline_functions_deterministic _ _ _ _ H).
  - refine (proj1 (proj2 (proj2 pipeline_functions_deterministic)
      _ _ _ _ log_preprocessor log_preprocessor log_session log_session
      "http://a/b.png" "http://c/d.png" [] ["earlier"] _ _ _ _ _ _ _ _ _ _ _)).
    + vm_compute. reflexivity.
    + vm_compute. reflexivity.
    + vm_compute. reflexivity.
    + vm_compute. reflexivity.
Defined.

(** ** The routes *)

(** C7. [GET /health] answers 200 with the body [{"status": "healthy"}],
    whatever the request carries, whatever the collaborators (the loaded model
    among them) and the state of the world, and without calling any of them:
    the world is left as it was. *)
Theorem health_always_healthy {world tensor HttpUrl : Type}
    (create_preprocessor : (ndarray -> M heap ndarray) -> nat * nat -> string -> M world tensor)
    (session_run : tensor -> M world (list (list (list float))))
    (HttpUrl_validate : string -> option HttpUrl) (HttpUrl_str : HttpUrl -> string)
    (u : option string) (w : world) :
  app create_preprocessor session_run HttpUrl_validate HttpUrl_str
      (mk_http_request GET "/health" u) w
    = (Ok (mk_http_response 200 (JsonStatus [("status", "healthy")])), w) /\
  is_success (mk_http_response 200 (JsonStatus [("status", "healthy")])) = true.
Proof. split; reflexivity. Qed.

(** C8. A [POST /predict] whose URL does not validate is answered 422, a
    client error, and no collaborator is called: no fetch, no preprocessing,
    no model run, no assembly; the world is left as it was. *)
Theorem invalid_url_rejected {world tensor HttpUrl : Type}
    (create_preprocessor : (ndarray -> M heap ndarray) -> nat * nat -> string -> M world tensor)
    (session_run : tensor -> M world (list (list (list float))))
    (HttpUrl_validate : string -> option HttpUrl) (HttpUrl_str : HttpUrl -> string)
    (u : option string) (w : world) :
  u ≫= HttpUrl_validate = None ->
  exists r,
    app create_preprocessor session_run HttpUrl_validate HttpUrl_str
        (mk_http_request POST "/predict" u) w = (Ok r, w) /\
    status r = 422 /\
    is_client_error r = true.
Proof.
  intros Hu. unfold app. simpl. rewrite Hu.
  eexists. split_and!; reflexivity.
Qed.

Lemma invalid_url_rejected_witness :
  Some "not a url" ≫= http_prefix_validate = None /\
  (exists r,
     app log_preprocessor log_session http_prefix_validate id
         (mk_http_request POST "/predict" (Some "not a url")) [] = (Ok r, []) /\
     status r = 422 /\
     is_client_error r = true) /\
  (app log_preprocessor log_session http_prefix_validate id
       (mk_http_request POST "/predict" (Some "http://bit.ly/mlbookcamp-pants")) []).2
    = ["fetch"; "run"].
Proof.
  split; [reflexivity|]. split.
  - apply (invalid_url_rejected log_preprocessor log_session http_prefix_validate id
             (Some "not a url") []).
    reflexivity.
  - vm_compute. reflexivity.
Defined.

(** ** Indexing *)

Lemma length_indices shape : length (indices shape) = size shape.
Proof.
  induction shape as [|n s IH]; [done|]. simpl.
  rewrite length_concat, <- IH. clear IH.
  generalize 0 as k. induction n as [|n IHn]; intros k; simpl; [done|].
  rewrite length_map. f_equal. apply IHn.
Qed.

Lemma in_bounds_indices shape idx :
  idx ∈ indices shape -> in_bounds idx shape = true.
Proof.
  revert idx. induction shape as [|n s IH]; intros idx Hin; simpl in Hin.
  - apply list_elem_of_singleton in Hin as ->. done.
  - apply list_elem_of_In, in_concat in Hin as (l & Hl & Hidx).
    apply list_elem_of_In in Hl, Hidx.
    apply list_elem_of_fmap in Hl as (i & -> & Hi).
    apply list_elem_of_fmap in Hidx as (idx' & -> & Hidx').
    apply elem_of_seq in Hi. simpl.
    rewrite (IH idx' Hidx'), andb_true_r. apply Nat.ltb_lt. lia.
Qed.

Lemma lookup_concat_uniform {A} (ls : list (list A)) L i j l :
  Forall (fun l => length l = L) ls ->
  ls !! i = Some l -> j < L ->
  concat ls !! (i * L + j) = l !! j.
Proof.
  intros Hall. revert i. induction Hall as [|l0 ls Hl0 Hall IH]; intros i Hi Hj; [done|].
  destruct i as [|i]; simpl in *.
  - injection Hi as ->. rewrite lookup_app_l; [done|lia].
  - rewrite lookup_app_r by lia.
    replace (L + i * L + j - length l0) with (i * L + j) by lia. by apply IH.
Qed.

Lemma offset_cons i idx st strides :
  offset (i :: idx) (st :: strides) = i * st + offset idx strides.
Proof. reflexivity. Qed.

Lemma indices_lookup shape idx :
  in_bounds idx shape = true ->
  indices shape !! offset idx (c_strides shape) = Some idx.
Proof.
  revert idx. induction shape as [|n s IH]; intros [|i idx] Hb; try done.
  simpl in Hb. apply andb_true_iff in Hb as [Hi Hb]. apply Nat.ltb_lt in Hi.
  specialize (IH idx Hb).
  cbn [c_strides indices]. rewrite offset_cons.
  rewrite (lookup_concat_uniform _ (size s) i _ (map (cons i) (indices s))).
  - rewrite list_lookup_fmap, IH. done.
  - apply Forall_forall. intros l Hl.
    apply list_elem_of_fmap in Hl as (k & -> & _).
    by rewrite length_map, length_indices.
  - rewrite list_lookup_fmap, lookup_seq_lt by done. done.
  - apply lookup_lt_Some in IH. by rewrite length_indices in IH.
Qed.

Lemma length_c_strides shape : length (c_strides shape) = length shape.
Proof. induction shape; simpl; congruence. Qed.

(** ** What each NumPy operation returns *)

Lemma holds_mono h h' X dt shape f :
  h ⊆ h' -> holds h X dt shape f -> holds h' X dt shape f.
Proof.
  intros Hsub (Hdt & Hsh & Hst & Hget). split_and!; try done.
  intros idx Hb. eapply getitem_weaken; eauto.
Qed.

Lemma new_array_holds dt shape g (f : list nat -> float) h :
  (forall idx, in_bounds idx shape = true -> g idx = Some (f idx)) ->
  exists Y h',
    new_array dt shape g h = (Ok Y, h') /\ h ⊆ h' /\ holds h' Y dt shape f.
Proof.
  intros Hg. unfold new_array.
  assert (Hm : mapM g (indices shape) = Some (map f (indices shape))).
  { apply mapM_Some_2, Forall2_fmap_r, Forall_Forall2_diag, Forall_forall.
    intros idx Hin. by apply Hg, in_bounds_indices. }
  rewrite Hm. eexists _, _. split; [reflexivity|]. split.
  - apply insert_subseteq, fresh_lookup.
  - split_and!; try done; simpl.
    + apply length_c_strides.
    + intros idx Hb. unfold getitem. simpl. rewrite Hb, lookup_insert_eq. simpl.
      by rewrite list_lookup_fmap, indices_lookup.
Qed.

Lemma scalar_op_holds op X y h dt shape f :
  holds h X dt shape f ->
  exists Y h',
    np.scalar_op op X y h = (Ok Y, h') /\ h ⊆ h' /\
    holds h' Y dt shape (fun idx => op dt (f idx) (cast float64 dt y)).
Proof.
  intros (Hdt & Hsh & _ & Hget). unfold np.scalar_op. rewrite Hdt, Hsh.
  apply new_array_holds. intros idx Hb. by rewrite (Hget idx Hb).
Qed.

Lemma astype_holds X dt' h dt shape f :
  holds h X dt shape f ->
  exists Y h',
    np.astype X dt' h = (Ok Y, h') /\ h ⊆ h' /\
    holds h' Y dt' shape (fun idx => cast dt dt' (f idx)).
Proof.
  intros (Hdt & Hsh & _ & Hget). unfold np.astype. rewrite Hsh, Hdt.
  apply new_array_holds. intros idx Hb. by rewrite (Hget idx Hb).
Qed.

(** The bounds of an index into a 4-axis shape. *)
Lemma in_bounds_4 idx n0 n1 n2 n3 :
  in_bounds idx [n0; n1; n2; n3] = true <->
  exists i0 i1 i2 i3, idx = [i0; i1; i2; i3] /\ i0 < n0 /\ i1 < n1 /\ i2 < n2 /\ i3 < n3.
Proof.
  split.
  - destruct idx as [|i0 [|i1 [|i2 [|i3 [|]]]]]; simpl; try done;
      rewrite ?andb_false_r; try done.
    rewrite !andb_true_iff, !Nat.ltb_lt. intros (?&?&?&?&_).
    by exists i0, i1, i2, i3.
  - intros (i0 & i1 & i2 & i3 & -> & H0 & H1 & H2 & H3). simpl.
    rewrite !andb_true_iff, !Nat.ltb_lt. done.
Qed.

(** [np.array([a, b, c]).reshape(1, 3, 1, 1)] *)
Lemma channel_vector_holds a b c h :
  exists Y h',
    (v ← np.array [a; b; c]; np.reshape v [1; 3; 1; 1]) h = (Ok Y, h') /\
    h ⊆ h' /\
    holds h' Y float64 [1; 3; 1; 1]
      (fun idx => default S754_nan ([a; b; c] !! default 0 (idx !! 1))).
Proof.
  eexists _, _. split; [reflexivity|]. split.
  - apply insert_subseteq, fresh_lookup.
  - split_and!; try done. intros idx Hb.
    apply in_bounds_4 in Hb as (i0 & i1 & i2 & i3 & -> & H0 & H1 & H2 & H3).
    unfold getitem. cbn [nd_shape nd_buf nd_strides].
    rewrite (proj2 (in_bounds_4 _ _ _ _ _)) by (by exists i0, i1, i2, i3).
    rewrite lookup_insert_eq.
    assert (i0 = 0) as -> by lia. assert (i2 = 0) as -> by lia.
    assert (i3 = 0) as -> by lia.
    destruct i1 as [|[|[|]]]; try lia; reflexivity.
Qed.

(** [X.transpose(0, 3, 1, 2)] *)
Lemma transpose_0312_holds X h dt n0 n1 n2 n3 f :
  holds h X dt [n0; n1; n2; n3] f ->
  exists Y,
    np.transpose X [0; 3; 1; 2] h = (Ok Y, h) /\
    holds h Y dt [n0; n3; n1; n2]
      (fun idx =>
         match idx with
         | [i0; i1; i2; i3] => f [i0; i2; i3; i1]
         | _ => S754_nan
         end).
Proof.
  intros (Hdt & Hsh & Hst & Hget).
  destruct X as [buf dt' shape strides]. simpl in *. subst dt' shape.
  destruct strides as [|s0 [|s1 [|s2 [|s3 [|]]]]]; try done.
  eexists. split; [reflexivity|].
  split_and!; try done. intros idx Hb.
  apply in_bounds_4 in Hb as (i0 & i1 & i2 & i3 & -> & H0 & H1 & H2 & H3).
  rewrite <- (Hget [i0; i2; i3; i1]).
  2: { apply in_bounds_4. exists i0, i2, i3, i1. split_and!; done. }
  unfold getitem. cbn [nd_shape nd_buf nd_strides].
  rewrite !(proj2 (in_bounds_4 _ _ _ _ _)) by (eexists _, _, _, _; split_and!; done).
  replace (offset [i0; i1; i2; i3] [s0; s3; s1; s2])
    with (offset [i0; i2; i3; i1] [s0; s1; s2; s3]); [done|].
  unfold offset. simpl. lia.
Qed.

Lemma broadcast_dim_1_r n : broadcast_dim n 1 = Some n.
Proof.
  unfold broadcast_dim. destruct (Nat.eqb_spec n 1) as [->|]; [done|].
  done.
Qed.

Lemma stretch_stride i n st : i < n -> i * (if n =? 1 then 0 else st) = i * st.
Proof.
  intros Hi. destruct (Nat.eqb_spec n 1) as [->|]; [|done].
  assert (i = 0) as -> by lia. done.
Qed.

(** [X op V] for [X] of shape (1, 3, H, W) and [V] of shape (1, 3, 1, 1) *)
Lemma binary_op_channel_holds op X V h dtx dtv H W f g :
  holds h X dtx [1; 3; H; W] f ->
  holds h V dtv [1; 3; 1; 1] g ->
  exists Y h',
    np.binary_op op X V h = (Ok Y, h') /\ h ⊆ h' /\
    holds h' Y (result_type dtx dtv) [1; 3; H; W]
      (fun idx =>
         op (result_type dtx dtv)
            (cast dtx (result_type dtx dtv) (f idx))
            (cast dtv (result_type dtx dtv) (g [0; default 0 (idx !! 1); 0; 0]))).
Proof.
  intros (HXdt & HXsh & HXst & HXget) (HVdt & HVsh & HVst & HVget).
  unfold np.binary_op. rewrite HXsh, HVsh, HXdt, HVdt.
  assert (Hbs : broadcast_shapes [1; 3; H; W] [1; 3; 1; 1] = Some [1; 3; H; W]).
  { unfold broadcast_shapes. simpl. by rewrite !broadcast_dim_1_r. }
  rewrite Hbs. apply new_array_holds. intros idx Hb.
  apply in_bounds_4 in Hb as (i0 & i1 & i2 & i3 & -> & H0 & H1 & H2 & H3).
  assert (i0 = 0) as -> by lia.
  assert (HbX : in_bounds [0; i1; i2; i3] [1; 3; H; W] = true).
  { apply in_bounds_4. eexists _, _, _, _. split_and!; done. }
  assert (HbV : in_bounds [0; i1; 0; 0] [1; 3; 1; 1] = true).
  { apply in_bounds_4. eexists _, _, _, _. split_and!; (done || lia). }
  destruct X as [bx dx shx stx], V as [bv dv shv stv].
  cbn [nd_shape nd_buf nd_strides nd_dtype] in *. subst.
  destruct stx as [|s0 [|s1 [|s2 [|s3 [|]]]]]; try done.
  destruct stv as [|t0 [|t1 [|t2 [|t3 [|]]]]]; try done.
  specialize (HXget _ HbX). specialize (HVget _ HbV).
  unfold getitem in *. unfold broadcast_to. cbn [nd_shape nd_buf nd_strides] in *.
  rewrite HbX in *. rewrite HbV in HVget.
  destruct (h !! bx) as [datax|]; [|done].
  destruct (h !! bv) as [datav|]; [|done].
  change (pad (length [1; 3; H; W]) 1 [1; 3; H; W]) with [1; 3; H; W].
  change (pad (length [1; 3; H; W]) 1 [1; 3; 1; 1]) with [1; 3; 1; 1].
  change (pad (length [1; 3; H; W]) 0 [s0; s1; s2; s3]) with [s0; s1; s2; s3].
  change (pad (length [1; 3; H; W]) 0 [t0; t1; t2; t3]) with [t0; t1; t2; t3].
  cbn [zip_with Nat.eqb].
  replace (offset [0; i1; i2; i3]
             [0; s1; if H =? 1 then 0 else s2; if W =? 1 then 0 else s3])
    with (offset [0; i1; i2; i3] [s0; s1; s2; s3]).
  2: { unfold offset. simpl. rewrite !stretch_stride by done. lia. }
  replace (offset [0; i1; i2; i3] [0; t1; 0; 0])
    with (offset [0; i1; 0; 0] [t0; t1; t2; t3]).
  2: { unfold offset. simpl. lia. }
  cbn [mbind option_bind] in *. rewrite HXget. cbn [mbind option_bind]. rewrite HVget.
  done.
Qed.

Lemma bind_ok {S A B} (m : M S A) (f : A -> M S B) s a s' :
  m s = (Ok a, s') -> (m ≫= f) s = f a s'.
Proof. intros H. unfold mbind, M_bind. by rewrite H. Qed.

Lemma channel_vector_bind a b c h :
  exists Y h',
    h ⊆ h' /\
    holds h' Y float64 [1; 3; 1; 1]
      (fun idx => default S754_nan ([a; b; c] !! default 0 (idx !! 1))) /\
    forall B (k : ndarray -> M heap B),
      (v ← np.array [a; b; c]; w ← np.reshape v [1; 3; 1; 1]; k w) h = k Y h'.
Proof.
  destruct (channel_vector_holds a b c h) as (Y & h' & Hrun & Hsub & Hh).
  exists Y, h'. split_and!; try done.
  injection Hrun as <- <-. reflexivity.
Qed.

Lemma result_type_float64 dt : result_type dt float64 = float64.
Proof. by destruct dt. Qed.

(** ** Preprocessing transform *)

(** C3. For an input array of floats of shape (1, H, W, 3), in particular
    (1, 224, 224, 3), with one stride per axis and whatever its memory layout,
    [preprocess_pytorch_style] returns an array of dtype
    [float32] and shape (1, 3, H, W) whose element at channel [c], row [i],
    column [j] is [((pixel / 255) - mean[c]) / std[c]] for the input's pixel at
    row [i], column [j], channel [c]: the division by 255 is done in the input's
    dtype, the subtraction and the division by [std] in [float64], and the
    result is rounded to [float32].  When channel 0 of the input is 255
    everywhere and channels 1 and 2 are 0 everywhere, channel 0 of the output is
    [(1 - 0.485) / 0.229] everywhere, channel 1 is [(0 - 0.456) / 0.224] and
    channel 2 is [(0 - 0.406) / 0.225]. *)
Theorem preprocess_pytorch_style_spec (h : heap) (X : ndarray) (dt : dtype)
    (H W : nat) (pixel : nat -> nat -> nat -> float) :
  nd_dtype X = dt ->
  nd_shape X = [1; H; W; 3] ->
  length (nd_strides X) = 4 ->
  (forall i j c, i < H -> j < W -> c < 3 ->
     getitem h X [0; i; j; c] = Some (pixel i j c)) ->
  exists Y h',
    preprocess_pytorch_style X h = (Ok Y, h') /\
    nd_dtype Y = float32 /\
    nd_shape Y = [1; 3; H; W] /\
    (forall c i j m s, i < H -> j < W ->
       mean_values !! c = Some m -> std_values !! c = Some s ->
       getitem h' Y [0; c; i; j]
         = Some (convert float32
                   (fdiv float64
                      (fsub float64
                         (cast dt float64
                            (fdiv dt (pixel i j c) (cast float64 dt (of_Z float64 255))))
                         m)
                      s))) /\
    ((forall i j, i < H -> j < W ->
        pixel i j 0 = of_Z dt 255 /\ pixel i j 1 = of_Z dt 0 /\ pixel i j 2 = of_Z dt 0) ->
     forall i j, i < H -> j < W ->
       getitem h' Y [0; 0; i; j]
         = Some (convert float32
                   (fdiv float64 (fsub float64 (of_Z float64 1) (decimal 485 1000))
                      (decimal 229 1000))) /\
       getitem h' Y [0; 1; i; j]
         = Some (convert float32
                   (fdiv float64 (fsub float64 (of_Z float64 0) (decimal 456 1000))
                      (decimal 224 1000))) /\
       getitem h' Y [0; 2; i; j]
         = Some (convert float32
                   (fdiv float64 (fsub float64 (of_Z float64 0) (decimal 406 1000))
                      (decimal 225 1000)))).
Proof.
  intros Hdt Hsh Hst Hpix.
  set (f := fun idx : list nat =>
              pixel (default 0 (idx !! 1)) (default 0 (idx !! 2)) (default 0 (idx !! 3))).
  assert (HX : holds h X dt [1; H; W; 3] f).
  { split_and!; try done. intros idx Hb.
    apply in_bounds_4 in Hb as (i0 & i & j & c & -> & H0 & Hi & Hj & Hc).
    assert (i0 = 0) as -> by lia. by apply Hpix. }
  unfold preprocess_pytorch_style, np.true_divide_scalar, np.subtract, np.true_divide,
    mean_values, std_values.
  destruct (scalar_op_holds fdiv X (of_Z float64 255) h dt _ f HX)
    as (X1 & h1 & Hrun1 & Hsub1 & HX1).
  rewrite (bind_ok _ _ _ _ _ Hrun1).
  destruct (channel_vector_bind
              (decimal 485 1000) (decimal 456 1000) (decimal 406 1000) h1)
    as (mean & h2 & Hsub2 & Hmean & Hrun2).
  rewrite Hrun2. clear Hrun2.
  destruct (channel_vector_bind
              (decimal 229 1000) (decimal 224 1000) (decimal 225 1000) h2)
    as (std & h3 & Hsub3 & Hstd & Hrun3).
  rewrite Hrun3. clear Hrun3.
  assert (HX1' : holds h3 X1 dt [1; H; W; 3] (fun idx => fdiv dt (f idx) (cast float64 dt (of_Z float64 255)))).
  { eapply holds_mono; [|exact HX1]. by etrans. }
  destruct (transpose_0312_holds X1 h3 dt _ _ _ _ _ HX1') as (X2 & Hrun4 & HX2).
  rewrite (bind_ok _ _ _ _ _ Hrun4).
  destruct (binary_op_channel_holds fsub X2 mean h3 dt float64 H W _ _ HX2
              (holds_mono _ _ _ _ _ _ Hsub3 Hmean))
    as (X3 & h4 & Hrun5 & Hsub5 & HX3).
  rewrite (bind_ok _ _ _ _ _ Hrun5).
  rewrite result_type_float64 in HX3.
  destruct (binary_op_channel_holds fdiv X3 std h4 float64 float64 H W _ _ HX3
              (holds_mono _ _ _ _ _ _ Hsub5 Hstd))
    as (X4 & h5 & Hrun6 & Hsub6 & HX4).
  rewrite (bind_ok _ _ _ _ _ Hrun6).
  destruct (astype_holds X4 float32 h5 _ _ _ HX4) as (Y & h6 & Hrun7 & Hsub7 & HY).
  exists Y, h6. split; [exact Hrun7|].
  destruct HY as (HYdt & HYsh & _ & HYget).
  assert (Hformula : forall c i j m s, i < H -> j < W ->
    [decimal 485 1000; decimal 456 1000; decimal 406 1000] !! c = Some m ->
    [decimal 229 1000; decimal 224 1000; decimal 225 1000] !! c = Some s ->
    getitem h6 Y [0; c; i; j]
      = Some (convert float32
                (fdiv float64
                   (fsub float64
                      (cast dt float64
                         (fdiv dt (pixel i j c) (cast float64 dt (of_Z float64 255))))
                      m)
                   s))).
  { intros c i j m s Hi Hj Hm Hs.
    assert (Hc : c < 3) by (apply lookup_lt_Some in Hm; simpl in Hm; lia).
    rewrite HYget by (apply in_bounds_4; eexists _, _, _, _; split_and!; (done || lia)).
    unfold f. cbn [lookup list_lookup default]. simpl. rewrite Hm, Hs. reflexivity. }
  split_and!; try done.
  intros Hred i j Hi Hj. destruct (Hred i j Hi Hj) as (H0 & H1 & H2).
  rewrite (Hformula 0 i j _ _ Hi Hj eq_refl eq_refl),
    (Hformula 1 i j _ _ Hi Hj eq_refl eq_refl),
    (Hformula 2 i j _ _ Hi Hj eq_refl eq_refl), H0, H1, H2.
  destruct dt; split_and!; vm_compute; reflexivity.
Qed.

Lemma preprocess_pytorch_style_spec_witness :
  nd_shape (red_image float32) = [1; 2; 3; 3] /\
  exists Y h',
    preprocess_pytorch_style (red_image float32) (red_heap float32) = (Ok Y, h') /\
    nd_dtype Y = float32 /\
    nd_shape Y = [1; 3; 2; 3] /\
    getitem h' Y [0; 0; 1; 2]
      = Some (convert float32
                (fdiv float64 (fsub float64 (of_Z float64 1) (decimal 485 1000))
                   (decimal 229 1000))).
Proof.
  split; [reflexivity|].
  destruct (preprocess_pytorch_style_spec (red_heap float32) (red_image float32)
              float32 2 3 (red_pixel float32))
    as (Y & h' & Hrun & Hdt & Hsh & _ & Hred).
  - reflexivity.
  - reflexivity.
  - reflexivity.
  - intros i j c Hi Hj Hc.
    destruct i as [|[|]]; try lia; destruct j as [|[|[|]]]; try lia;
      destruct c as [|[|[|]]]; try lia; reflexivity.
  - exists Y, h'. split; [exact Hrun|]. split; [exact Hdt|]. split; [exact Hsh|].
    refine (proj1 (Hred (fun i j _ _ => conj eq_refl (conj eq_refl eq_refl)) 1 2 _ _)); lia.
Defined.

(** The three constants of C3, as [float32] values. *)
Example channel_constants :
  convert float32
    (fdiv float64 (fsub float64 (of_Z float64 1) (decimal 485 1000)) (decimal 229 1000))
    = S754_finite false 9432605 (-22) /\
  convert float32
    (fdiv float64 (fsub float64 (of_Z float64 0) (decimal 456 1000)) (decimal 224 1000))
    = S754_finite true 8538405 (-22) /\
  convert float32
    (fdiv float64 (fsub float64 (of_Z float64 0) (decimal 406 1000)) (decimal 225 1000))
    = S754_finite true 15136777 (-23).
Proof. split_and!; vm_compute; reflexivity. Qed.

(** For the pixel values of an 8-bit image, 0 to 255, in either dtype, the
    element that the transform computes is within one millionth of the
    rational number [((p / 255) - mean) / std]. *)
Lemma preprocess_8bit_accuracy (dt : dtype) :
  forallb (fun p : Z =>
    forallb (fun ms : Z * Z =>
      match to_Q (convert float32
                    (fdiv float64
                       (fsub float64
                          (cast dt float64
                             (fdiv dt (of_Z dt p) (cast float64 dt (of_Z float64 255))))
                          (decimal ms.1 1000))
                       (decimal ms.2 1000))) with
      | Some q =>
          Qle_bool (Qabs (q - ((p # 255) - (ms.1 # 1000)) / (ms.2 # 1000))) (1 # 1000000)
      | None => false
      end)
      [(485, 229); (456, 224); (406, 225)]%Z)
    (map Z.of_nat (seq 0 256)) = true.
Proof. destruct dt; vm_compute; reflexivity. Qed.

(** * Further properties of the code *)

(** ** Assembly: the mapping *)

Lemma get_absent {V} (d : Dict.t V) k : k ∉ Dict.keys d -> Dict.get d k = None.
Proof.
  induction d as [|[k' v'] d IH]; simpl; intros Hk; [done|].
  apply not_elem_of_cons in Hk as [Hne Hk].
  destruct (String.eqb_spec k' k) as [->|_]; [done|]. by apply IH.
Qed.

Lemma zip_take_r {A B} (l : list A) (k : list B) : zip l k = zip l (take (length l) k).
Proof.
  revert k. induction l as [|a l IH]; intros [|b k]; simpl; try done.
  by rewrite <- IH.
Qed.

(** X1. In every result of the assembly, the mapping holds for the class at
    position [i] of the class list the score at position [i], and has no
    entry for a class whose position has no score. *)
Theorem predict_assemble_lookup (scores : list float) d tc tp :
  predict_assemble scores = Ok (d, tc, tp) ->
  forall i c, classes !! i = Some c -> Dict.get d c = scores !! i.
Proof.
  intros H i c Hc. apply predict_assemble_inv in H as (_ & -> & _).
  pose proof (zip_classes_nodup scores) as Hnd.
  destruct (scores !! i) as [v|] eqn:Hv.
  - apply (get_lookup _ i); [done|]. by apply zip_lookup_Some.
  - apply get_absent. unfold Dict.keys. rewrite zip_fst_take.
    intros Hin. apply list_elem_of_lookup in Hin as [j Hj].
    apply lookup_take_Some in Hj as [Hj Hlt].
    assert (j = i) as -> by (eapply NoDup_lookup; [apply classes_nodup|done..]).
    apply lookup_ge_None in Hv. lia.
Qed.

Lemma predict_assemble_lookup_witness :
  predict_assemble scores_example
    = Ok (zip classes scores_example, "skirt", decimal 3 10) /\
  Dict.get (zip classes scores_example) "pants" = scores_example !! 4.
Proof.
  assert (H : predict_assemble scores_example
    = Ok (zip classes scores_example, "skirt", decimal 3 10)) by (vm_compute; reflexivity).
  split; [exact H|].
  exact (predict_assemble_lookup _ _ _ _ H 4 "pants" eq_refl).
Defined.

(** X2. For every score list that is not empty the assembly returns, and the
    top class is the class at some position below 10 of the class list, with
    the score at that position as top probability. *)
Theorem predict_assemble_top_position (scores : list float) :
  scores <> [] ->
  exists d tc tp i,
    predict_assemble scores = Ok (d, tc, tp) /\
    i < 10 /\ classes !! i = Some tc /\ scores !! i = Some tp.
Proof.
  intros Hne.
  destruct (predict_assemble_spec scores Hne) as (i & tc & tp & Heq & Hi & _).
  apply zip_lookup_Some in Hi as [Hc Hs].
  exists (zip classes scores), tc, tp, i. split_and!; try done.
  apply lookup_lt_Some in Hc. exact Hc.
Qed.

Lemma predict_assemble_top_position_witness :
  take 3 scores_tie <> [] /\
  exists d tc tp i,
    predict_assemble (take 3 scores_tie) = Ok (d, tc, tp) /\
    i < 10 /\ classes !! i = Some tc /\ take 3 scores_tie !! i = Some tp.
Proof.
  split; [discriminate|].
  apply (predict_assemble_top_position (take 3 scores_tie)). discriminate.
Defined.

(** X3. Scores after the tenth play no part: the assembly returns for a score
    list what it returns for its first ten scores. *)
Theorem predict_assemble_first_ten (scores : list float) :
  predict_assemble scores = predict_assemble (take 10 scores).
Proof.
  unfold predict_assemble. rewrite (zip_take_r classes scores). reflexivity.
Qed.

(** ** Assembly: NaN scores *)

Lemma max_loop_nan_first (d rest : Dict.t float) mk :
  (forall k v, (k, v) ∈ rest -> Dict.get d k = Some v) ->
  max_loop (Dict.get d) mk (Some S754_nan) (Dict.keys rest) = Ok mk.
Proof.
  induction rest as [|[k v] rest IH]; intros Hrest; [done|].
  simpl. rewrite (Hrest k v) by left. simpl.
  apply IH. intros k0 v0 Hin. apply Hrest. by right.
Qed.

Lemma float_gt_not_nan v m : float_gt v m = true -> is_nan v = false.
Proof. unfold float_gt, SFltb. destruct v; try done. by destruct m. Qed.

Lemma max_loop_not_nan (d rest : Dict.t float) mk mv :
  is_nan mv = false ->
  (forall k v, (k, v) ∈ rest -> Dict.get d k = Some v) ->
  Dict.get d mk = Some mv ->
  exists k' v',
    max_loop (Dict.get d) mk (Some mv) (Dict.keys rest) = Ok k' /\
    Dict.get d k' = Some v' /\ is_nan v' = false.
Proof.
  revert mk mv. induction rest as [|[k v] rest IH]; intros mk mv Hnan Hrest Hmk.
  - by exists mk, mv.
  - simpl. rewrite (Hrest k v) by left. simpl.
    assert (Hrest' : forall k0 v0, (k0, v0) ∈ rest -> Dict.get d k0 = Some v0).
    { intros k0 v0 Hin. apply Hrest. by right. }
    destruct (float_gt v mv) eqn:Hgt.
    + apply IH; [by eapply float_gt_not_nan|done|]. apply Hrest. left.
    + by apply IH.
Qed.

(** X4. A NaN score is returned as top probability exactly when it is the
    first score: if the first score is NaN the top class is "dress" with
    that NaN, whatever the other scores; if it is not, the top probability is
    not NaN, whatever NaN the later scores hold. *)
Theorem predict_assemble_nan (s0 : float) (scores : list float) d tc tp :
  predict_assemble (s0 :: scores) = Ok (d, tc, tp) ->
  (is_nan s0 = true -> tc = "dress" /\ tp = s0) /\
  (is_nan s0 = false -> is_nan tp = false).
Proof.
  intros H. pose proof (zip_classes_nodup (s0 :: scores)) as Hnd.
  unfold predict_assemble in H. rewrite (of_items_nodup _ Hnd) in H. cbv zeta in H.
  set (d0 := zip classes (s0 :: scores)) in *.
  assert (Hall : forall k v, (k, v) ∈ d0 -> Dict.get d0 k = Some v).
  { intros k v Hin. apply list_elem_of_lookup in Hin as [j Hj]. by eapply get_lookup. }
  assert (Hd0 : d0 = ("dress", s0) :: zip (tail classes) scores) by reflexivity.
  assert (Hrest : forall k v, (k, v) ∈ zip (tail classes) scores -> Dict.get d0 k = Some v).
  { intros k v Hin. apply Hall. rewrite Hd0. by right. }
  assert (Hfirst : Dict.get d0 "dress" = Some s0).
  { apply Hall. rewrite Hd0. left. }
  assert (Hmax : py_max (Dict.get d0) (Dict.keys d0)
                 = max_loop (Dict.get d0) "dress" (Some s0)
                     (Dict.keys (zip (tail classes) scores))).
  { change (Dict.keys d0) with ("dress" :: Dict.keys (zip (tail classes) scores)).
    unfold py_max. by rewrite Hfirst. }
  rewrite Hmax in H. split.
  - intros Hn. destruct s0; try discriminate.
    rewrite (max_loop_nan_first d0 _ "dress" Hrest) in H.
    unfold mbind at 1, result_bind at 1, Dict.getitem in H. rewrite Hfirst in H.
    simpl in H. by injection H as _ <- <-.
  - intros Hn.
    destruct (max_loop_not_nan d0 _ "dress" s0 Hn Hrest Hfirst) as (k' & v' & Hk & Hv & Hv').
    rewrite Hk in H.
    unfold mbind at 1, result_bind at 1, Dict.getitem in H. rewrite Hv in H.
    simpl in H. by injection H as _ _ <-.
Qed.

Lemma predict_assemble_nan_witness :
  predict_assemble (S754_nan :: scores_example)
    = Ok (zip classes (S754_nan :: scores_example), "dress", S754_nan) /\
  (is_nan S754_nan = true -> "dress" = "dress" /\ S754_nan = S754_nan).
Proof.
  assert (H : predict_assemble (S754_nan :: scores_example)
    = Ok (zip classes (S754_nan :: scores_example), "dress", S754_nan))
    by (vm_compute; reflexivity).
  split; [exact H|].
  exact (proj1 (predict_assemble_nan _ _ _ _ _ H)).
Defined.

(** ** The prediction pipeline *)

(** X5. [predict] looks at the first row of the first output of the model
    only: with no output, or a first output with no row, it raises
    [IndexError]; with an empty first row it raises [ValueError]; otherwise it
    returns the assembly of that row, whatever the other rows and outputs hold.
    The world is left as the session left it. *)
Theorem predict_model_output {world tensor}
    (create_preprocessor : (ndarray -> M heap ndarray) -> nat * nat -> string -> M world tensor)
    (session_run : tensor -> M world (list (list (list float))))
    (url : string) (w w1 w2 : world) X result :
  preprocessor create_preprocessor url w = (Ok X, w1) ->
  session_run X w1 = (Ok result, w2) ->
  predict create_preprocessor session_run url w =
    (match result with
     | [] => Raise IndexError
     | [] :: _ => Raise IndexError
     | ([] :: _) :: _ => Raise ValueError
     | (row :: _) :: _ => predict_assemble (tolist row)
     end, w2).
Proof.
  intros Hp Hs. unfold predict, mbind, M_bind, lift. rewrite Hp, Hs.
  destruct result as [|[|[|s row] rows] outs]; reflexivity.
Qed.

Lemma predict_model_output_witness :
  predict log_preprocessor (fixed_session [[[]; scores_example]; []])
      "http://bit.ly/mlbookcamp-pants" []
    = (Raise ValueError, ["fetch"; "run"]).
Proof.
  refine (predict_model_output log_preprocessor (fixed_session [[[]; scores_example]; []])
            "http://bit.ly/mlbookcamp-pants" [] ["fetch"] ["fetch"; "run"] _
            [[[]; scores_example]; []] _ _).
  - vm_compute. reflexivity.
  - reflexivity.
Defined.

(** X6. A failure upstream ends the request: when the image helper raises,
    [predict] raises the same exception without running the model (the world
    is as the helper left it, for every session); when the session raises,
    [predict] raises the same exception.  In both cases [POST /predict] with a
    URL that validates answers 500, a server error. *)
Theorem predict_upstream_failure {world tensor HttpUrl : Type}
    (create_preprocessor : (ndarray -> M heap ndarray) -> nat * nat -> string -> M world tensor)
    (session_run : tensor -> M world (list (list (list float))))
    (HttpUrl_validate : string -> option HttpUrl) (HttpUrl_str : HttpUrl -> string)
    (s : string) (u : HttpUrl) (w w' : world) (e : exn) :
  HttpUrl_validate s = Some u ->
  (preprocessor create_preprocessor (HttpUrl_str u) w = (Raise e, w') \/
   exists X w1,
     preprocessor create_preprocessor (HttpUrl_str u) w = (Ok X, w1) /\
     session_run X w1 = (Raise e, w')) ->
  predict create_preprocessor session_run (HttpUrl_str u) w = (Raise e, w') /\
  exists r,
    app create_preprocessor session_run HttpUrl_validate HttpUrl_str
        (mk_http_request POST "/predict" (Some s)) w = (Ok r, w') /\
    status r = 500 /\ is_server_error r = true.
Proof.
  intros Hu Hfail.
  assert (Hp : predict create_preprocessor session_run (HttpUrl_str u) w = (Raise e, w')).
  { unfold predict, mbind, M_bind.
    destruct Hfail as [Hp|(X & w1 & Hp & Hs)]; rewrite Hp; [done|]. by rewrite Hs. }
  split; [exact Hp|].
  unfold app. simpl. rewrite Hu. unfold predict_endpoint, mbind, M_bind. simpl.
  rewrite Hp. eexists. split_and!; reflexivity.
Qed.

Lemma predict_upstream_failure_witness :
  http_prefix_validate "http://bit.ly/mlbookcamp-pants"
    = Some "http://bit.ly/mlbookcamp-pants" /\
  predict failing_preprocessor log_session (id "http://bit.ly/mlbookcamp-pants") []
    = (Raise (External "fetch"), ["fetch"]) /\
  exists r,
    app failing_preprocessor log_session http_prefix_validate id
        (mk_http_request POST "/predict" (Some "http://bit.ly/mlbookcamp-pants")) []
      = (Ok r, ["fetch"]) /\
    status r = 500 /\ is_server_error r = true.
Proof.
  split; [reflexivity|].
  apply (predict_upstream_failure failing_preprocessor log_session
           http_prefix_validate id "http://bit.ly/mlbookcamp-pants"
           "http://bit.ly/mlbookcamp-pants" [] ["fetch"] (External "fetch")).
  - reflexivity.
  - left. reflexivity.
Defined.

Lemma take_min_length {A} (l : list A) n : take n l = take (n `min` length l) l.
Proof.
  destruct (Nat.le_gt_cases n (length l)) as [Hle|Hgt].
  - by rewrite Nat.min_l.
  - rewrite Nat.min_r by lia. rewrite !take_ge; [done|lia..].
Qed.

(** X7. Every answer of the service that carries a prediction is well formed:
    its status is 200, the keys of its mapping are the first classes of the
    class list, in order, its top class is one of these keys, and its top
    probability is the value the mapping holds for the top class. *)
Theorem prediction_response_well_formed {world tensor HttpUrl : Type}
    (create_preprocessor : (ndarray -> M heap ndarray) -> nat * nat -> string -> M world tensor)
    (session_run : tensor -> M world (list (list (list float))))
    (HttpUrl_validate : string -> option HttpUrl) (HttpUrl_str : HttpUrl -> string)
    (req : http_request) (w w' : world) (code : nat) (r : PredictResponse) :
  app create_preprocessor session_run HttpUrl_validate HttpUrl_str req w
    = (Ok (mk_http_response code (JsonPrediction r)), w') ->
  code = 200 /\
  (exists n, 0 < n <= 10 /\ Dict.keys (predictions r) = take n classes) /\
  top_class r ∈ Dict.keys (predictions r) /\
  Dict.get (predictions r) (top_class r) = Some (top_probability r).
Proof.
  unfold app. intros H.
  destruct (req_method req).
  { repeat (destruct (String.eqb _ _) in H); discriminate. }
  destruct (String.eqb (req_path req) "/predict").
  2: { destruct (String.eqb _ _) in H; discriminate. }
  destruct (req_url req ≫= HttpUrl_validate) as [u|]; [|discriminate].
  unfold predict_endpoint, mbind, M_bind in H. simpl in H.
  destruct (predict create_preprocessor session_run (HttpUrl_str u) w)
    as [[[[d tc] tp]|e] w1] eqn:Hp; [|discriminate].
  injection H as <- <- <-. simpl.
  apply predict_inv in Hp as [scores Hp].
  apply predict_assemble_inv in Hp as (Hne & -> & i & Hi & _).
  pose proof (zip_classes_nodup scores) as Hnd.
  split_and!; [done| | |].
  - exists (length scores `min` 10). split.
    + destruct scores; [done|]. simpl. lia.
    + unfold Dict.keys. rewrite zip_fst_take.
      change 10 with (length classes). apply take_min_length.
  - apply list_elem_of_fmap. exists (tc, tp). split; [done|]. by eapply list_elem_of_lookup_2.
  - by eapply get_lookup.
Qed.

Lemma prediction_response_well_formed_witness :
  exists r,
    app log_preprocessor log_session http_prefix_validate id
        (mk_http_request POST "/predict" (Some "http://bit.ly/mlbookcamp-pants")) []
      = (Ok (mk_http_response 200 (JsonPrediction r)), ["fetch"; "run"]) /\
    Dict.get (predictions r) (top_class r) = Some (top_probability r).
Proof.
  eexists. split.
  - vm_compute. reflexivity.
  - refine (proj2 (proj2 (proj2 (prediction_response_well_formed
      log_preprocessor log_session http_prefix_validate id
      (mk_http_request POST "/predict" (Some "http://bit.ly/mlbookcamp-pants"))
      [] ["fetch"; "run"] 200 _ _)))).
    vm_compute. reflexivity.
Defined.

(** ** Preprocessing: other shapes *)

Lemma contiguous_holds (h : heap) l dt shape data :
  h !! l = Some data ->
  length data = size shape ->
  holds h (mk_ndarray l dt shape (c_strides shape)) dt shape
    (fun idx => default S754_nan (data !! offset idx (c_strides shape))).
Proof.
  intros Hl Hlen. split_and!; try done; simpl.
  - apply length_c_strides.
  - intros idx Hb. unfold getitem. simpl. rewrite Hb, Hl. simpl.
    pose proof (indices_lookup shape idx Hb) as Hlk.
    apply lookup_lt_Some in Hlk. rewrite length_indices, <- Hlen in Hlk.
    destruct (lookup_lt_is_Some_2 data _ Hlk) as [x Hx]. by rewrite Hx.
Qed.

Lemma broadcast_dim_1_3 C : C = 1 \/ C = 3 -> broadcast_dim C 3 = Some 3.
Proof. by intros [-> | ->]. Qed.

Lemma broadcast_dim_other C : C <> 1 -> C <> 3 -> broadcast_dim C 3 = None.
Proof.
  intros H1 H3. unfold broadcast_dim.
  destruct (Nat.eqb_spec C 3); [done|]. destruct (Nat.eqb_spec C 1); done.
Qed.

(** [X op V] for [X] of shape (N, C, H, W) with [C] 1 or 3, and [V] of shape
    (1, 3, 1, 1) *)
Lemma binary_op_channels_holds op X V h dtx dtv N C H W f g :
  C = 1 \/ C = 3 ->
  holds h X dtx [N; C; H; W] f ->
  holds h V dtv [1; 3; 1; 1] g ->
  exists Y h',
    np.binary_op op X V h = (Ok Y, h') /\ h ⊆ h' /\
    holds h' Y (result_type dtx dtv) [N; 3; H; W]
      (fun idx =>
         op (result_type dtx dtv)
            (cast dtx (result_type dtx dtv)
               (f [default 0 (idx !! 0);
                   if C =? 1 then 0 else default 0 (idx !! 1);
                   default 0 (idx !! 2); default 0 (idx !! 3)]))
            (cast dtv (result_type dtx dtv) (g [0; default 0 (idx !! 1); 0; 0]))).
Proof.
  intros HC (HXdt & HXsh & HXst & HXget) (HVdt & HVsh & HVst & HVget).
  unfold np.binary_op. rewrite HXsh, HVsh, HXdt, HVdt.
  assert (Hbs : broadcast_shapes [N; C; H; W] [1; 3; 1; 1] = Some [N; 3; H; W]).
  { unfold broadcast_shapes. simpl.
    by rewrite !broadcast_dim_1_r, (broadcast_dim_1_3 C HC). }
  rewrite Hbs. apply new_array_holds. intros idx Hb.
  apply in_bounds_4 in Hb as (i0 & i1 & i2 & i3 & -> & H0 & H1 & H2 & H3).
  set (c := if C =? 1 then 0 else i1).
  assert (Hc : c < C).
  { unfold c. destruct HC as [-> | ->]; simpl; lia. }
  assert (HbY : in_bounds [i0; i1; i2; i3] [N; 3; H; W] = true).
  { apply in_bounds_4. eexists _, _, _, _. split_and!; done. }
  assert (HbX : in_bounds [i0; c; i2; i3] [N; C; H; W] = true).
  { apply in_bounds_4. eexists _, _, _, _. split_and!; done. }
  assert (HbV : in_bounds [0; i1; 0; 0] [1; 3; 1; 1] = true).
  { apply in_bounds_4. eexists _, _, _, _. split_and!; (done || lia). }
  destruct X as [bx dx shx stx], V as [bv dv shv stv].
  cbn [nd_shape nd_buf nd_strides nd_dtype] in *. subst dx shx dv shv.
  destruct stx as [|s0 [|s1 [|s2 [|s3 [|]]]]]; try done.
  destruct stv as [|t0 [|t1 [|t2 [|t3 [|]]]]]; try done.
  specialize (HXget _ HbX). specialize (HVget _ HbV).
  unfold getitem in *. unfold broadcast_to. cbn [nd_shape nd_buf nd_strides] in *.
  rewrite HbY. rewrite HbX in HXget. rewrite HbV in HVget.
  destruct (h !! bx) as [datax|]; [|done].
  destruct (h !! bv) as [datav|]; [|done].
  change (pad (length [N; 3; H; W]) 1 [N; C; H; W]) with [N; C; H; W].
  change (pad (length [N; 3; H; W]) 1 [1; 3; 1; 1]) with [1; 3; 1; 1].
  change (pad (length [N; 3; H; W]) 0 [s0; s1; s2; s3]) with [s0; s1; s2; s3].
  change (pad (length [N; 3; H; W]) 0 [t0; t1; t2; t3]) with [t0; t1; t2; t3].
  cbn [zip_with Nat.eqb].
  replace (offset [i0; i1; i2; i3]
             [if N =? 1 then 0 else s0; if C =? 1 then 0 else s1;
              if H =? 1 then 0 else s2; if W =? 1 then 0 else s3])
    with (offset [i0; c; i2; i3] [s0; s1; s2; s3]).
  2: { unfold offset, c. simpl.
       rewrite (stretch_stride i0 N), (stretch_stride i2 H), (stretch_stride i3 W) by done.
       destruct HC as [-> | ->]; simpl; lia. }
  replace (offset [i0; i1; i2; i3] [0; t1; 0; 0])
    with (offset [0; i1; 0; 0] [t0; t1; t2; t3]).
  2: { unfold offset. simpl. lia. }
  cbn [mbind option_bind] in *. rewrite HXget. cbn [mbind option_bind]. rewrite HVget.
  done.
Qed.

Lemma preprocess_holds h X dt N H W C f :
  C = 1 \/ C = 3 ->
  holds h X dt [N; H; W; C] f ->
  exists Y h',
    preprocess_pytorch_style X h = (Ok Y, h') /\
    holds h' Y float32 [N; 3; H; W]
      (fun idx =>
         convert float32
           (fdiv float64
              (fsub float64
                 (cast dt float64
                    (fdiv dt
                       (f [default 0 (idx !! 0); default 0 (idx !! 2);
                           default 0 (idx !! 3);
                           if C =? 1 then 0 else default 0 (idx !! 1)])
                       (cast float64 dt (of_Z float64 255))))
                 (default S754_nan (mean_values !! default 0 (idx !! 1))))
              (default S754_nan (std_values !! default 0 (idx !! 1))))).
Proof.
  intros HC HX.
  unfold preprocess_pytorch_style, np.true_divide_scalar, np.subtract, np.true_divide,
    mean_values, std_values.
  destruct (scalar_op_holds fdiv X (of_Z float64 255) h dt _ f HX)
    as (X1 & h1 & Hrun1 & Hsub1 & HX1).
  rewrite (bind_ok _ _ _ _ _ Hrun1).
  destruct (channel_vector_bind
              (decimal 485 1000) (decimal 456 1000) (decimal 406 1000) h1)
    as (mean & h2 & Hsub2 & Hmean & Hrun2).
  rewrite Hrun2. clear Hrun2.
  destruct (channel_vector_bind
              (decimal 229 1000) (decimal 224 1000) (decimal 225 1000) h2)
    as (std & h3 & Hsub3 & Hstd & Hrun3).
  rewrite Hrun3. clear Hrun3.
  assert (HX1' : holds h3 X1 dt [N; H; W; C]
            (fun idx => fdiv dt (f idx) (cast float64 dt (of_Z float64 255)))).
  { eapply holds_mono; [|exact HX1]. by etrans. }
  destruct (transpose_0312_holds X1 h3 dt _ _ _ _ _ HX1') as (X2 & Hrun4 & HX2).
  rewrite (bind_ok _ _ _ _ _ Hrun4).
  destruct (binary_op_channels_holds fsub X2 mean h3 dt float64 N C H W _ _ HC HX2
              (holds_mono _ _ _ _ _ _ Hsub3 Hmean))
    as (X3 & h4 & Hrun5 & Hsub5 & HX3).
  rewrite (bind_ok _ _ _ _ _ Hrun5).
  rewrite result_type_float64 in HX3.
  destruct (binary_op_channels_holds fdiv X3 std h4 float64 float64 N 3 H W _ _
              (or_intror eq_refl) HX3 (holds_mono _ _ _ _ _ _ Hsub5 Hstd))
    as (X4 & h5 & Hrun6 & Hsub6 & HX4).
  rewrite (bind_ok _ _ _ _ _ Hrun6).
  destruct (astype_holds X4 float32 h5 _ _ _ HX4) as (Y & h6 & Hrun7 & Hsub7 & HY).
  exists Y, h6. split; [exact Hrun7|].
  exact HY.
Qed.

(** X8. Batches: for an input of shape (N, H, W, 3), whatever N, the
    transform returns a [float32] array of shape (N, 3, H, W) whose element
    [n, c, i, j] is computed from the input's element [n, i, j, c] alone, by
    the formula of the single image. *)
Theorem preprocess_batch (h : heap) (X : ndarray) (dt : dtype) (N H W : nat)
    (pixel : nat -> nat -> nat -> nat -> float) :
  nd_dtype X = dt ->
  nd_shape X = [N; H; W; 3] ->
  length (nd_strides X) = 4 ->
  (forall n i j c, n < N -> i < H -> j < W -> c < 3 ->
     getitem h X [n; i; j; c] = Some (pixel n i j c)) ->
  exists Y h',
    preprocess_pytorch_style X h = (Ok Y, h') /\
    nd_dtype Y = float32 /\
    nd_shape Y = [N; 3; H; W] /\
    forall n c i j m s, n < N -> i < H -> j < W ->
      mean_values !! c = Some m -> std_values !! c = Some s ->
      getitem h' Y [n; c; i; j]
        = Some (convert float32
                  (fdiv float64
                     (fsub float64
                        (cast dt float64
                           (fdiv dt (pixel n i j c) (cast float64 dt (of_Z float64 255))))
                        m)
                     s)).
Proof.
  intros Hdt Hsh Hst Hpix.
  set (f := fun idx : list nat =>
              pixel (default 0 (idx !! 0)) (default 0 (idx !! 1))
                    (default 0 (idx !! 2)) (default 0 (idx !! 3))).
  assert (HX : holds h X dt [N; H; W; 3] f).
  { split_and!; try done. intros idx Hb.
    apply in_bounds_4 in Hb as (n & i & j & c & -> & Hn & Hi & Hj & Hc).
    by apply Hpix. }
  destruct (preprocess_holds h X dt N H W 3 f (or_intror eq_refl) HX)
    as (Y & h' & Hrun & HYdt & HYsh & _ & HYget).
  exists Y, h'. split_and!; try done.
  intros n c i j m s Hn Hi Hj Hm Hs.
  assert (Hc : c < 3) by (apply lookup_lt_Some in Hm; simpl in Hm; lia).
  rewrite HYget by (apply in_bounds_4; eexists _, _, _, _; split_and!; (done || lia)).
  unfold f.
  change ([n; c; i; j] !! 0) with (Some n). change ([n; c; i; j] !! 1) with (Some c).
  change ([n; c; i; j] !! 2) with (Some i). change ([n; c; i; j] !! 3) with (Some j).
  cbn [default Nat.eqb]. unfold id. rewrite Hm, Hs. reflexivity.
Qed.

Lemma preprocess_batch_witness :
  nd_shape (white_image [2; 1; 2; 3]) = [2; 1; 2; 3] /\
  exists Y h',
    preprocess_pytorch_style (white_image [2; 1; 2; 3]) (white_heap [2; 1; 2; 3])
      = (Ok Y, h') /\
    nd_dtype Y = float32 /\
    nd_shape Y = [2; 3; 1; 2].
Proof.
  split; [reflexivity|].
  destruct (preprocess_batch (white_heap [2; 1; 2; 3]) (white_image [2; 1; 2; 3])
              float32 2 1 2 (fun _ _ _ _ => of_Z float32 255))
    as (Y & h' & Hrun & Hdt & Hsh & _).
  - reflexivity.
  - reflexivity.
  - reflexivity.
  - intros n i j c Hn Hi Hj Hc.
    destruct n as [|[|]]; try lia; destruct i as [|]; try lia;
      destruct j as [|[|]]; try lia; destruct c as [|[|[|]]]; try lia; reflexivity.
  - exists Y, h'. split; [exact Hrun|]. split; [exact Hdt|exact Hsh].
Defined.

(** X9. A single channel is not rejected: for an input of shape (N, H, W, 1)
    the transform returns an array of shape (N, 3, H, W), in which each of the
    three channels is the one input channel normalised with the mean and
    standard deviation of that output channel. *)
Theorem preprocess_single_channel (h : heap) (X : ndarray) (dt : dtype) (N H W : nat)
    (pixel : nat -> nat -> nat -> float) :
  nd_dtype X = dt ->
  nd_shape X = [N; H; W; 1] ->
  length (nd_strides X) = 4 ->
  (forall n i j, n < N -> i < H -> j < W ->
     getitem h X [n; i; j; 0] = Some (pixel n i j)) ->
  exists Y h',
    preprocess_pytorch_style X h = (Ok Y, h') /\
    nd_dtype Y = float32 /\
    nd_shape Y = [N; 3; H; W] /\
    forall n c i j m s, n < N -> i < H -> j < W ->
      mean_values !! c = Some m -> std_values !! c = Some s ->
      getitem h' Y [n; c; i; j]
        = Some (convert float32
                  (fdiv float64
                     (fsub float64
                        (cast dt float64
                           (fdiv dt (pixel n i j) (cast float64 dt (of_Z float64 255))))
                        m)
                     s)).
Proof.
  intros Hdt Hsh Hst Hpix.
  set (f := fun idx : list nat =>
              pixel (default 0 (idx !! 0)) (default 0 (idx !! 1)) (default 0 (idx !! 2))).
  assert (HX : holds h X dt [N; H; W; 1] f).
  { split_and!; try done. intros idx Hb.
    apply in_bounds_4 in Hb as (n & i & j & c & -> & Hn & Hi & Hj & Hc).
    assert (c = 0) as -> by lia. by apply Hpix. }
  destruct (preprocess_holds h X dt N H W 1 f (or_introl eq_refl) HX)
    as (Y & h' & Hrun & HYdt & HYsh & _ & HYget).
  exists Y, h'. split_and!; try done.
  intros n c i j m s Hn Hi Hj Hm Hs.
  assert (Hc : c < 3) by (apply lookup_lt_Some in Hm; simpl in Hm; lia).
  rewrite HYget by (apply in_bounds_4; eexists _, _, _, _; split_and!; (done || lia)).
  unfold f.
  change ([n; c; i; j] !! 0) with (Some n). change ([n; c; i; j] !! 1) with (Some c).
  change ([n; c; i; j] !! 2) with (Some i). change ([n; c; i; j] !! 3) with (Some j).
  cbn [default Nat.eqb]. unfold id. rewrite Hm, Hs. reflexivity.
Qed.

Lemma preprocess_single_channel_witness :
  nd_shape (white_image [1; 2; 2; 1]) = [1; 2; 2; 1] /\
  exists Y h',
    preprocess_pytorch_style (white_image [1; 2; 2; 1]) (white_heap [1; 2; 2; 1])
      = (Ok Y, h') /\
    nd_dtype Y = float32 /\
    nd_shape Y = [1; 3; 2; 2].
Proof.
  split; [reflexivity|].
  destruct (preprocess_single_channel (white_heap [1; 2; 2; 1]) (white_image [1; 2; 2; 1])
              float32 1 2 2 (fun _ _ _ => of_Z float32 255))
    as (Y & h' & Hrun & Hdt & Hsh & _).
  - reflexivity.
  - reflexivity.
  - reflexivity.
  - intros n i j Hn Hi Hj.
    destruct n as [|]; try lia; destruct i as [|[|]]; try lia;
      destruct j as [|[|]]; try lia; reflexivity.
  - exists Y, h'. split; [exact Hrun|]. split; [exact Hdt|exact Hsh].
Defined.

(** ** Preprocessing: inputs it rejects *)

Lemma bind_raise {S A B} (m : M S A) (f : A -> M S B) s e s' :
  m s = (Raise e, s') -> (m ≫= f) s = (Raise e, s').
Proof. intros H. unfold mbind, M_bind. by rewrite H. Qed.

Lemma transpose_wrong_rank X h :
  length (nd_shape X) <> 4 ->
  np.transpose X [0; 3; 1; 2] h = (Raise ValueError, h).
Proof.
  intros Hlen. unfold np.transpose.
  destruct (mapM (fun a => nd_shape X !! a) [0; 3; 1; 2]),
    (mapM (fun a => nd_strides X !! a) [0; 3; 1; 2]); try done.
  case_bool_decide as Hd; [|done]. destruct Hd as [_ Hd]. simpl in Hd. congruence.
Qed.

Lemma subseteq_preprocess X h r h' :
  preprocess_pytorch_style X h = (r, h') -> h ⊆ h'.
Proof. intros H. pose proof (extends_preprocess X h) as Hsub. by rewrite H in Hsub. Qed.

(** X10. An input that does not have four axes is rejected: the transform
    raises [ValueError] (the transposition finds no such axes), and the input
    stays as it was. *)
Theorem preprocess_wrong_rank (h : heap) (X : ndarray) dt shape f :
  holds h X dt shape f ->
  length shape <> 4 ->
  exists h', preprocess_pytorch_style X h = (Raise ValueError, h') /\ h ⊆ h'.
Proof.
  intros HX Hlen.
  assert (Hrun : exists h', preprocess_pytorch_style X h = (Raise ValueError, h')).
  { unfold preprocess_pytorch_style, np.true_divide_scalar, mean_values, std_values.
    destruct (scalar_op_holds fdiv X (of_Z float64 255) h dt _ f HX)
      as (X1 & h1 & Hrun1 & Hsub1 & (_ & Hsh1 & _)).
    rewrite (bind_ok _ _ _ _ _ Hrun1).
    destruct (channel_vector_bind
                (decimal 485 1000) (decimal 456 1000) (decimal 406 1000) h1)
      as (mean & h2 & _ & _ & Hrun2).
    rewrite Hrun2. clear Hrun2.
    destruct (channel_vector_bind
                (decimal 229 1000) (decimal 224 1000) (decimal 225 1000) h2)
      as (std & h3 & _ & _ & Hrun3).
    rewrite Hrun3. clear Hrun3.
    exists h3. apply bind_raise, transpose_wrong_rank. by rewrite Hsh1. }
  destruct Hrun as [h' Hrun]. exists h'. split; [exact Hrun|].
  by eapply subseteq_preprocess.
Qed.

Lemma preprocess_wrong_rank_witness :
  length [2; 2; 3] <> 4 /\
  exists h',
    preprocess_pytorch_style (white_image [2; 2; 3]) (white_heap [2; 2; 3])
      = (Raise ValueError, h') /\
    white_heap [2; 2; 3] ⊆ h'.
Proof.
  split; [discriminate|].
  eapply (preprocess_wrong_rank (white_heap [2; 2; 3]) (white_image [2; 2; 3])).
  - apply contiguous_holds; reflexivity.
  - discriminate.
Defined.

(** X11. An input of shape (N, H, W, C) whose number of channels is neither 3
    nor 1 is rejected: the transform raises [ValueError] (the channels do not
    broadcast against the three means), and the input stays as it was. *)
Theorem preprocess_wrong_channels (h : heap) (X : ndarray) dt N H W C f :
  holds h X dt [N; H; W; C] f ->
  C <> 1 -> C <> 3 ->
  exists h', preprocess_pytorch_style X h = (Raise ValueError, h') /\ h ⊆ h'.
Proof.
  intros HX HC1 HC3.
  assert (Hrun : exists h', preprocess_pytorch_style X h = (Raise ValueError, h')).
  { unfold preprocess_pytorch_style, np.true_divide_scalar, np.subtract,
      mean_values, std_values.
    destruct (scalar_op_holds fdiv X (of_Z float64 255) h dt _ f HX)
      as (X1 & h1 & Hrun1 & Hsub1 & HX1).
    rewrite (bind_ok _ _ _ _ _ Hrun1).
    destruct (channel_vector_bind
                (decimal 485 1000) (decimal 456 1000) (decimal 406 1000) h1)
      as (mean & h2 & Hsub2 & (_ & Hmsh & _) & Hrun2).
    rewrite Hrun2. clear Hrun2.
    destruct (channel_vector_bind
                (decimal 229 1000) (decimal 224 1000) (decimal 225 1000) h2)
      as (std & h3 & Hsub3 & _ & Hrun3).
    rewrite Hrun3. clear Hrun3.
    assert (HX1' : holds h3 X1 dt [N; H; W; C]
              (fun idx => fdiv dt (f idx) (cast float64 dt (of_Z float64 255)))).
    { eapply holds_mono; [|exact HX1]. by etrans. }
    destruct (transpose_0312_holds X1 h3 dt _ _ _ _ _ HX1')
      as (X2 & Hrun4 & (_ & HX2sh & _)).
    rewrite (bind_ok _ _ _ _ _ Hrun4).
    exists h3. apply bind_raise. unfold np.binary_op. rewrite HX2sh, Hmsh.
    assert (Hbs : broadcast_shapes [N; C; H; W] [1; 3; 1; 1] = None).
    { unfold broadcast_shapes. simpl.
      by rewrite !broadcast_dim_1_r, (broadcast_dim_other C HC1 HC3). }
    by rewrite Hbs. }
  destruct Hrun as [h' Hrun]. exists h'. split; [exact Hrun|].
  by eapply subseteq_preprocess.
Qed.

Lemma preprocess_wrong_channels_witness :
  4 <> 1 /\ 4 <> 3 /\
  exists h',
    preprocess_pytorch_style (white_image [1; 2; 2; 4]) (white_heap [1; 2; 2; 4])
      = (Raise ValueError, h') /\
    white_heap [1; 2; 2; 4] ⊆ h'.
Proof.
  split; [discriminate|]. split; [discriminate|].
  eapply (preprocess_wrong_channels (white_heap [1; 2; 2; 4]) (white_image [1; 2; 2; 4])
            float32 1 2 2 4).
  - apply (contiguous_holds (white_heap [1; 2; 2; 4]) 1%positive float32 [1; 2; 2; 4]);
      reflexivity.
  - discriminate.
  - discriminate.
Defined.

(** ** Preprocessing: the returned array *)






(** ** Preprocessing: memory layout *)

Lemma holds_value h X dt shape f :
  holds h X dt shape f -> value h X = Some (dt, shape, map f (indices shape)).
Proof.
  intros (Hdt & Hsh & _ & Hget). unfold value, elements. rewrite Hdt, Hsh.
  assert (Hm : mapM (getitem h X) (indices shape) = Some (map f (indices shape))).
  { apply mapM_Some_2, Forall2_fmap_r, Forall_Forall2_diag, Forall_forall.
    intros idx Hin. by apply Hget, in_bounds_indices. }
  by rewrite Hm.
Qed.

(** X13. The result does not depend on how the input is laid out in memory:
    two inputs of shape (N, H, W, C), C being 3 or 1, with the same dtype and
    the same elements give outputs with the same dtype, shape and elements,
    whatever their strides and whatever else the two stores hold. *)
Theorem preprocess_layout_independent (h1 h2 : heap) (X1 X2 : ndarray) dt N H W C f :
  C = 1 \/ C = 3 ->
  holds h1 X1 dt [N; H; W; C] f ->
  holds h2 X2 dt [N; H; W; C] f ->
  outcome (preprocess_pytorch_style X1 h1) = outcome (preprocess_pytorch_style X2 h2) /\
  exists v, outcome (preprocess_pytorch_style X1 h1) = Ok (Some v).
Proof.
  intros HC H1 H2.
  destruct (preprocess_holds h1 X1 dt N H W C f HC H1) as (Y1 & h1' & Hrun1 & HY1).
  destruct (preprocess_holds h2 X2 dt N H W C f HC H2) as (Y2 & h2' & Hrun2 & HY2).
  rewrite Hrun1, Hrun2. unfold outcome.
  rewrite (holds_value _ _ _ _ _ HY1), (holds_value _ _ _ _ _ HY2).
  split; [done|]. by eexists.
Qed.

Lemma preprocess_layout_independent_witness :
  nd_strides (red_image float32) <> nd_strides (red_image_planar float32) /\
  outcome (preprocess_pytorch_style (red_image float32) (red_heap float32))
    = outcome (preprocess_pytorch_style (red_image_planar float32)
                 (red_heap_planar float32)).
Proof.
  split; [discriminate|].
  refine (proj1 (preprocess_layout_independent (red_heap float32) (red_heap_planar float32)
            (red_image float32) (red_image_planar float32) float32 1 2 3 3
            (fun idx => red_pixel float32 0 0 (default 0 (idx !! 3)))
            (or_intror eq_refl) _ _)).
  - split_and!; try reflexivity. intros idx Hb.
    apply in_bounds_4 in Hb as (n & i & j & c & -> & Hn & Hi & Hj & Hc).
    destruct n as [|]; try lia; destruct i as [|[|]]; try lia;
      destruct j as [|[|[|]]]; try lia; destruct c as [|[|[|]]]; try lia; reflexivity.
  - split_and!; try reflexivity. intros idx Hb.
    apply in_bounds_4 in Hb as (n & i & j & c & -> & Hn & Hi & Hj & Hc).
    destruct n as [|]; try lia; destruct i as [|[|]]; try lia;
      destruct j as [|[|[|]]]; try lia; destruct c as [|[|[|]]]; try lia; reflexivity.
Defined.
